(** * Gromo Coach chat relay: conversation store, prompt composer,
      provider gateway and fallback generator (backend/app.py)

    A shallow embedding of the request handlers of backend/app.py.

    - A Python [str] is a Rocq [string] holding its UTF-8 bytes.  Comparing
      UTF-8 byte strings lexicographically agrees with Python's comparison
      of code points, so [sorted] is a sort by [String.le].
    - The module-level dict [conversations] is a [gmap string (list message)]
      that every handler receives and returns (explicit state passing).
    - What the environment decides (the uuid that is generated, the clock,
      the behaviour of the provider) is an explicit input, [env]. *)

From Stdlib Require Import ZArith Ascii.
From stdpp Require Import gmap strings list fin_maps sorting pretty.


(** ** Python strings *)

Section py_strings.

(** [needle in hay] *)
Fixpoint startswith (p s : string) : bool :=
  match p, s with
  | EmptyString, _ => true
  | String a p', String b s' => if Ascii.eqb a b then startswith p' s' else false
  | String _ _, EmptyString => false
  end.

Fixpoint contains (needle hay : string) : bool :=
  startswith needle hay ||
  match hay with
  | EmptyString => false
  | String _ hay' => contains needle hay'
  end.

(** Truth value of an optional string: [None] and [''] are false. *)
Definition truthy (v : option string) : bool :=
  match v with
  | Some (String _ _) => true
  | _ => false
  end.

(** [v or d] *)
Definition py_or (v : option string) (d : string) : string :=
  match v with
  | Some (String a s) => String a s
  | _ => d
  end.

(** [{v}] inside an f-string *)
Definition fstr (v : option string) : string := default "None" v.

(** The characters [str.strip()] removes are those of [str.isspace]:
    U+0009..U+000D, U+001C..U+0020, U+0085, U+00A0, U+1680,
    U+2000..U+200A, U+2028, U+2029, U+202F, U+205F, U+3000.
    On UTF-8 bytes these are one-, two- and three-byte sequences. *)
Definition ws1 (a : ascii) : bool :=
  let n := N_of_ascii a in
  ((9 <=? n) && (n <=? 13) || (28 <=? n) && (n <=? 32))%N.

Definition ws2 (a b : ascii) : bool :=
  let '(x, y) := (N_of_ascii a, N_of_ascii b) in
  ((x =? 194) && ((y =? 133) || (y =? 160)))%N.

Definition ws3 (a b c : ascii) : bool :=
  let '(x, y, z) := (N_of_ascii a, N_of_ascii b, N_of_ascii c) in
  ((x =? 225) && (y =? 154) && (z =? 128)
   || (x =? 226) && (y =? 128)
      && ((128 <=? z) && (z <=? 138) || (z =? 168) || (z =? 169) || (z =? 175))
   || (x =? 226) && (y =? 129) && (z =? 159)
   || (x =? 227) && (y =? 128) && (z =? 128))%N.

(** Dropping leading whitespace.  With [rv] the bytes are read from a
    reversed string, so a multi-byte character arrives last byte first. *)
Fixpoint lstrip_bytes (rv : bool) (s : string) : string :=
  match s with
  | EmptyString => s
  | String a s1 =>
      if ws1 a then lstrip_bytes rv s1 else
      match s1 with
      | EmptyString => s
      | String b s2 =>
          if (if rv then ws2 b a else ws2 a b) then lstrip_bytes rv s2 else
          match s2 with
          | EmptyString => s
          | String c s3 =>
              if (if rv then ws3 c b a else ws3 a b c)
              then lstrip_bytes rv s3 else s
          end
      end
  end.

Definition lstrip (s : string) : string := lstrip_bytes false s.
Definition rstrip (s : string) : string :=
  String.rev (lstrip_bytes true (String.rev s)).

(** [s.strip()] *)
Definition strip (s : string) : string := rstrip (lstrip s).

(** The UTF-8 encodings of the whitespace characters, one per element. *)
Definition utf8 (bs : list N) : string :=
  foldr (fun b s => String (ascii_of_N b) s) EmptyString bs.

Definition py_whitespace : list string :=
  (utf8 <$> [[9]; [10]; [11]; [12]; [13]; [28]; [29]; [30]; [31]; [32];
             [194; 133]; [194; 160]; [225; 154; 128];
             [226; 128; 128]; [226; 128; 129]; [226; 128; 130];
             [226; 128; 131]; [226; 128; 132]; [226; 128; 133];
             [226; 128; 134]; [226; 128; 135]; [226; 128; 136];
             [226; 128; 137]; [226; 128; 138]; [226; 128; 168];
             [226; 128; 169]; [226; 128; 175]; [226; 129; 159];
             [227; 128; 128]])%N.

(** A string made of whitespace characters only (possibly none). *)
Definition whitespace_only (s : string) : Prop :=
  exists toks : list string,
    Forall (fun t => t ∈ py_whitespace) toks /\
    s = foldr String.app EmptyString toks.

End py_strings.

(** ** Section markers of the mandated answer format *)

Definition QUICK_SUMMARY : string := "**📝 QUICK SUMMARY:**".
Definition DETAILED_EXPLANATION : string := "**📚 DETAILED EXPLANATION:**".
Definition PRACTICAL_EXAMPLES : string := "**💡 PRACTICAL EXAMPLES:**".
Definition ACTIONABLE_STEPS : string := "**🔧 ACTIONABLE STEPS:**".
Definition RELATED_QUESTIONS : string := "**❓ RELATED QUESTIONS TO EXPLORE:**".

Definition section_markers : list string :=
  [QUICK_SUMMARY; DETAILED_EXPLANATION; PRACTICAL_EXAMPLES;
   ACTIONABLE_STEPS; RELATED_QUESTIONS].

Definition has_all_markers (s : string) : bool :=
  forallb (fun m => contains m s) section_markers.

(** ** Fallback generator *)

Definition nl : string := String (ascii_of_N 10) EmptyString.

Definition fallback_default : string :=
  "I'm experiencing technical difficulties but I'm here to help.".

Definition fallback_head : string := "**📝 QUICK SUMMARY:**
".

Definition fallback_tail : string := "

**📚 DETAILED EXPLANATION:**
I'm Gromo Coach, designed to provide comprehensive financial guidance including insurance, investments, tax planning, and banking solutions. Currently experiencing some technical issues, but I'll do my best to help you.

**💡 PRACTICAL EXAMPLES:**
- Life insurance planning for young professionals (₹50 lakh coverage for ₹500/month)
- SIP investments for wealth building (₹5000/month can grow to ₹50 lakh in 15 years)
- Tax-saving strategies under Section 80C (save up to ₹46,800 in taxes)

**🔧 ACTIONABLE STEPS:**
1. Please try your question again in a moment
2. Be specific about your financial situation (age, income, goals)
3. Mention your investment timeline for better advice
4. Consider speaking with a financial advisor for complex queries

**❓ RELATED QUESTIONS TO EXPLORE:**
- What's the best investment strategy for someone my age?
- How much life insurance coverage do I actually need?
- Which tax-saving options give the best returns?
- How should I create and maintain an emergency fund?".

Definition generate_fallback_response (custom_message : option string) : string :=
  let base_message := py_or custom_message fallback_default in
  fallback_head +:+ base_message +:+ fallback_tail.

(** ** Prompt composer *)

Definition prompt_head : string := "
You are **Gromo Coach**, an advanced AI financial advisor for Gromo - India's leading financial services platform. You provide comprehensive, detailed responses with practical examples.

".

Definition prompt_tail : string := "
---
### 🎯 RESPONSE STRUCTURE (MANDATORY):

For EVERY user question, structure your response exactly like this:

**📝 QUICK SUMMARY:**
[1-2 sentence summary of the answer]

**📚 DETAILED EXPLANATION:**
[Comprehensive explanation broken into clear sections with headings]

**💡 PRACTICAL EXAMPLES:**
[Provide 2-3 real-world examples, preferably Indian context]

**🔧 ACTIONABLE STEPS:**
[Give specific, actionable advice the user can implement]

**❓ RELATED QUESTIONS TO EXPLORE:**
[Suggest 3-4 relevant follow-up questions they might want to ask]

### 🎯 Your Enhanced Capabilities:

**Financial Expertise Areas:**
- Insurance, Investments, Banking, Tax Planning, Real Estate, etc.

**Communication Style:**
- Be conversational but professional
- Use Indian examples and context
- Include relevant numbers and calculations
- Provide actionable advice

IMPORTANT: Every response must follow the 5-section structure. Never skip any section.
".

Definition session_info (agent_name client_name client_age client_income
    client_goal : option string) (language : string) : string :=
  "
### 👥 Session Info:
- **Gromo Agent**: " +:+ fstr agent_name +:+ "
- **Client**: " +:+ fstr client_name +:+ "
- **Age**: " +:+ py_or client_age "Not specified" +:+ "
- **Monthly Income**: ₹" +:+ py_or client_income "Not specified" +:+ "
- **Goal**: " +:+ py_or client_goal "General financial guidance" +:+ "
- **Language**: " +:+ language +:+ "
".

Definition generate_enhanced_system_prompt (agent_name client_name client_age
    client_income client_goal : option string) (language : string) : string :=
  let base_info :=
    if truthy agent_name && truthy client_name
    then session_info agent_name client_name client_age client_income
           client_goal language
    else "" in
  prompt_head +:+ base_info +:+ prompt_tail.

(** ** Conversation store *)

(** A message is the dict [{"role": ..., "content": ...}]. *)
Record message := Message { role : string; content : string }.

Global Instance message_eq_dec : EqDecision message.
Proof. solve_decision. Defined.

Abbreviation conversations := (gmap string (list message)).

Definition MAX_CONVERSATIONS : nat := 100.
Definition MAX_MESSAGES_PER_CONVERSATION : nat := 50.

(** [sorted(conversations.keys())].  The keys of a dict are pairwise
    distinct, so the sorted list does not depend on the order in which the
    dict enumerates them. *)
Definition sorted_sessions (c : conversations) : list string :=
  merge_sort String.le (map_to_list c).*1.

(** [for session_id in ks: del conversations[session_id]] *)
Definition del_all (ks : list string) (c : conversations) : conversations :=
  foldl (fun m session_id => delete session_id m) c ks.

(** The batch that one pass removes, [sorted_sessions[:10]]. *)
Definition batch (c : conversations) : list string :=
  take 10 (sorted_sessions c).

Definition clean_old_conversations (c : conversations) : conversations :=
  if decide (MAX_CONVERSATIONS < size c)
  then del_all (batch c) c
  else c.

(** ** Provider gateway *)

(** An exception, seen through the [except] clauses that may catch it:
    which of the classes it is an instance of, and its [str(e)]. *)
Record py_exception := PyException {
  is_Timeout : bool;
  is_ConnectionError : bool;
  is_RequestException : bool;
  is_JSONDecodeError : bool;
  exc_str : string
}.

(** What reading the body of a 200 response does: [response.json()] or one
    of the accesses [result["choices"][0]["message"]["content"]],
    [len(...)] raises; or there is no non-empty ["choices"]; or the first
    choice carries a string. *)
Inductive response_body :=
  | BodyRaises (e : py_exception)
  | NoChoices
  | FirstChoice (ai_response : string).

(** What [requests.post] does. *)
Inductive provider_outcome :=
  | PostRaises (e : py_exception)
  | Responded (status_code : Z) (body : response_body).

(** The chain of [except] clauses of [generate_groq_response]. *)
Definition handle_exception (e : py_exception) : string :=
  if is_Timeout e then
    generate_fallback_response
      (Some "The AI is taking longer than usual to respond. Please try again.")
  else if is_ConnectionError e then
    generate_fallback_response
      (Some "Unable to connect to AI service. Please check your internet connection.")
  else if is_RequestException e then
    generate_fallback_response (Some ("Network error: " +:+ exc_str e))
  else if is_JSONDecodeError e then
    generate_fallback_response (Some "Invalid response format from AI service")
  else
    generate_fallback_response (Some ("Unexpected error: " +:+ exc_str e)).


(** The environment of a request. *)
Record env := Env {
  uuid4 : string;                                (* [str(uuid.uuid4())] *)
  now : string;                                  (* [datetime.now().isoformat()] *)
  groq : list message -> provider_outcome        (* the provider, given the payload's messages *)
}.

Definition generate_groq_response (e : env) (messages : list message) : string :=
  match groq e messages with
  | PostRaises ex => handle_exception ex
  | Responded status_code body =>
      if decide (status_code = 200%Z) then
        match body with
        | BodyRaises ex => handle_exception ex
        | FirstChoice ai_response => ai_response
        | NoChoices =>
            generate_fallback_response (Some "API returned no response choices")
        end
      else if decide (status_code = 401%Z) then
        generate_fallback_response
          (Some "API authentication failed - please check API key")
      else if decide (status_code = 429%Z) then
        generate_fallback_response
          (Some "API rate limit exceeded - please try again later")
      else if decide (500 <= status_code)%Z then
        generate_fallback_response (Some "API server error - please try again")
      else
        generate_fallback_response (Some ("API Error " +:+ pretty status_code))
  end.

(** ** Requests and responses *)

(** The fields the handlers read from the JSON object of a request.  A
    field that is present carries the JSON type the handler expects
    (a string, or a boolean for [reset]); [other_keys] tells whether the
    object has further keys. *)
Record fields := Fields {
  f_session_id : option string;
  f_sessionId : option string;
  f_message : option string;
  f_agent_name : option string;
  f_client_name : option string;
  f_client_age : option string;
  f_client_income : option string;
  f_client_goal : option string;
  f_language : option string;
  f_reset : option bool;
  other_keys : bool
}.

(** [not data] for a dict: it has no key at all. *)
Definition dict_empty (d : fields) : bool :=
  bool_decide (f_session_id d = None) && bool_decide (f_sessionId d = None)
  && bool_decide (f_message d = None) && bool_decide (f_agent_name d = None)
  && bool_decide (f_client_name d = None) && bool_decide (f_client_age d = None)
  && bool_decide (f_client_income d = None) && bool_decide (f_client_goal d = None)
  && bool_decide (f_language d = None) && bool_decide (f_reset d = None)
  && negb (other_keys d).

(** The value [request.get_json()] returns: a dict, or some other JSON
    value, of which the handlers only see its truth value and the text of
    the [AttributeError] that [.get] raises on it. *)
Inductive json_data :=
  | NonDict (truth : bool) (attribute_error : string)
  | Dict (d : fields).

Record request := Request {
  is_json : bool;
  get_json : string + json_data      (* [inl]: raises [BadRequest], with its text *)
}.

Inductive jval :=
  | JStr (s : string)
  | JBool (b : bool)
  | JNum (n : Z).

Global Instance jval_eq_dec : EqDecision jval.
Proof. solve_decision. Defined.

(** [jsonify({...}), status] *)
Record response := Response {
  status : Z;
  body : list (string * jval)
}.

(** [body[k]] *)
Fixpoint assoc (k : string) (l : list (string * jval)) : option jval :=
  match l with
  | [] => None
  | (k', v) :: l' => if decide (k' = k) then Some v else assoc k l'
  end.

Definition field (k : string) (r : response) : option jval := assoc k (body r).

Definition error_response (code : Z) (msg : string) : response :=
  Response code [("error", JStr msg); ("success", JBool false)].

Definition internal_error (details : string) : response :=
  Response 500 [("error", JStr "An internal error occurred");
                ("success", JBool false); ("details", JStr details)].

(** ** Handlers *)

(** "Keep conversation history manageable": the first element and the
    last forty, [[l[0]] + l[-40:]], once the list is longer than the cap.
    A list longer than the cap is not empty and has more than forty
    elements, so [l[0]] is defined and [l[-40:]] is its last forty. *)
Definition trim (l : list message) : list message :=
  if decide (MAX_MESSAGES_PER_CONVERSATION < length l) then
    match l with
    | m0 :: _ => m0 :: drop (length l - 40) l
    | [] => l
    end
  else l.

(** [if not ai_response: ai_response = generate_fallback_response(why)] *)
Definition or_fallback (ai_response why : string) : string :=
  if decide (ai_response = "") then generate_fallback_response (Some why)
  else ai_response.

(** POST /chat.  The user message and the assistant message are appended
    to the list stored under [session_id], which is then trimmed; the
    store is written here once, with the final list. *)
Definition chat (e : env) (rq : request) (c0 : conversations)
    : response * conversations :=
  let c := clean_old_conversations c0 in
  if negb (is_json rq) then (error_response 400 "Request must be JSON", c) else
  match get_json rq with
  | inl bad_request => (internal_error bad_request, c)
  | inr (NonDict false _) => (error_response 400 "No JSON data received", c)
  | inr (NonDict true attribute_error) => (internal_error attribute_error, c)
  | inr (Dict data) =>
      if dict_empty data then (error_response 400 "No JSON data received", c) else
      let session_id := default (uuid4 e) (f_session_id data) in
      let user_message := strip (default "" (f_message data)) in
      let agent_name := default "" (f_agent_name data) in
      let client_name := default "" (f_client_name data) in
      let client_age := default "" (f_client_age data) in
      let client_income := default "" (f_client_income data) in
      let client_goal := default "" (f_client_goal data) in
      let language := default "English" (f_language data) in
      let reset_conversation := default false (f_reset data) in
      if decide (user_message = "") then
        (error_response 400 "Message is required and cannot be empty", c)
      else
        let c1 :=
          if bool_decide (c !! session_id = None) || reset_conversation then
            let system_prompt :=
              generate_enhanced_system_prompt (Some agent_name) (Some client_name)
                (Some client_age) (Some client_income) (Some client_goal) language in
            <[session_id := [Message "system" system_prompt]]> c
          else c in
        match c1 !! session_id with
        | None => (internal_error ("'" +:+ session_id +:+ "'"), c1)
        | Some conv =>
            let conv1 := conv ++ [Message "user" user_message] in
            let ai_response :=
              or_fallback (generate_groq_response e conv1)
                "Failed to generate response from AI service" in
            let conv2 := conv1 ++ [Message "assistant" ai_response] in
            let conv3 := trim conv2 in
            (Response 200
               [("success", JBool true);
                ("response", JStr ai_response);
                ("session_id", JStr session_id);
                ("message_count", JNum (Z.of_nat (length conv3) - 1));
                ("timestamp", JStr (now e));
                ("response_type", JStr "comprehensive_structured")],
             <[session_id := conv3]> c1)
        end
  end.

(** POST /api/chat *)
Definition api_chat (e : env) (rq : request) (c : conversations)
    : response * conversations :=
  if negb (is_json rq) then (error_response 400 "Request must be JSON", c) else
  match get_json rq with
  | inl bad_request => (internal_error bad_request, c)
  | inr (NonDict _ attribute_error) => (internal_error attribute_error, c)
  | inr (Dict data) =>
      let session_id :=
        py_or (f_sessionId data) (default (uuid4 e) (f_session_id data)) in
      let user_message := strip (default "" (f_message data)) in
      let language := default "English" (f_language data) in
      if decide (user_message = "") then
        (error_response 400 "Message is required", c)
      else
        let c1 :=
          if bool_decide (c !! session_id = None) then
            let system_prompt :=
              generate_enhanced_system_prompt None None None None None language in
            <[session_id := [Message "system" system_prompt]]> c
          else c in
        match c1 !! session_id with
        | None => (internal_error ("'" +:+ session_id +:+ "'"), c1)
        | Some conv =>
            let conv1 := conv ++ [Message "user" user_message] in
            let ai_response :=
              or_fallback (generate_groq_response e conv1)
                "Failed to generate response" in
            let conv2 := conv1 ++ [Message "assistant" ai_response] in
            (Response 200
               [("success", JBool true);
                ("response", JStr ai_response);
                ("message", JStr ai_response);
                ("session_id", JStr session_id);
                ("timestamp", JStr (now e))],
             <[session_id := conv2]> c1)
        end
  end.

(** POST /clear_conversation/<session_id> *)
Definition clear_conversation (session_id : string) (c : conversations)
    : response * conversations :=
  let c' := if bool_decide (is_Some (c !! session_id))
            then delete session_id c else c in
  (Response 200 [("success", JBool true);
                 ("message", JStr "Conversation cleared successfully")], c').

(** A request carrying a JSON object. *)
Definition json_request (data : fields) : request :=
  Request true (inr (Dict data)).

(** ** Notions used to state the properties *)

(** The message field is absent, empty or made of whitespace only. *)
Definition blank (message : option string) : Prop :=
  match message with
  | None => True
  | Some s => whitespace_only s
  end.

(** The message field is present and not empty once stripped. *)
Definition valid_message (data : fields) : Prop :=
  strip (default "" (f_message data)) <> "".

(** The session key POST /chat works on. *)
Definition chat_session_id (e : env) (data : fields) : string :=
  default (uuid4 e) (f_session_id data).

(** The session key POST /api/chat works on. *)
Definition api_chat_session_id (e : env) (data : fields) : string :=
  py_or (f_sessionId data) (default (uuid4 e) (f_session_id data)).

(** The system prompt POST /chat composes from the fields of a request. *)
Definition chat_system_prompt (data : fields) : string :=
  generate_enhanced_system_prompt
    (Some (default "" (f_agent_name data))) (Some (default "" (f_client_name data)))
    (Some (default "" (f_client_age data))) (Some (default "" (f_client_income data)))
    (Some (default "" (f_client_goal data))) (default "English" (f_language data)).

(** A provider that always answers 200 with the given text. *)
Definition answering (text : string) : env :=
  Env "generated-uuid" "2024-01-01T00:00:00"
      (fun _ => Responded 200 (FirstChoice text)).

(** A provider that answers with the given status and no usable body. *)
Definition failing (status_code : Z) : env :=
  Env "generated-uuid" "2024-01-01T00:00:00"
      (fun _ => Responded status_code NoChoices).

(** A session of [1 + n] messages: a system message, then [n] others. *)
Definition long_session (n : nat) : list message :=
  Message "system" "prompt" :: replicate n (Message "user" "again").

(** The list POST /chat appends to: a new list holding the system message
    alone when the session is absent after the eviction pass or a reset is
    asked for, the stored list otherwise. *)
Definition chat_base (e : env) (data : fields) (c : conversations)
    : list message :=
  match clean_old_conversations c !! chat_session_id e data with
  | Some conv =>
      if default false (f_reset data)
      then [Message "system" (chat_system_prompt data)]
      else conv
  | None => [Message "system" (chat_system_prompt data)]
  end.

(** The user message of a request, and the reply that follows the given
    history. *)
Definition user_turn (data : fields) : message :=
  Message "user" (strip (default "" (f_message data))).

Definition chat_reply (e : env) (data : fields) (history : list message) : string :=
  or_fallback (generate_groq_response e (history ++ [user_turn data]))
    "Failed to generate response from AI service".

(** The list POST /api/chat appends to. *)
Definition api_chat_base (e : env) (data : fields) (c : conversations)
    : list message :=
  match c !! api_chat_session_id e data with
  | Some conv => conv
  | None =>
      [Message "system"
         (generate_enhanced_system_prompt None None None None None
            (default "English" (f_language data)))]
  end.

Definition api_chat_reply (e : env) (data : fields) (history : list message)
    : string :=
  or_fallback (generate_groq_response e (history ++ [user_turn data]))
    "Failed to generate response".

(** ** Reachable stores *)

(** A first request to POST /api/chat for the given session. *)
Definition hello (session_id : string) : fields :=
  Fields None (Some session_id) (Some "Hi") None None None None None None None false.

Definition session_key (i : nat) : string := "s" +:+ pretty i.

(** The store after [n] requests to POST /api/chat, one for each of the
    session keys ["s0"], ["s1"], ..., while the provider answers 503. *)
Fixpoint store_of (n : nat) : conversations :=
  match n with
  | 0 => ∅
  | S n' =>
      (api_chat (failing 503) (json_request (hello (session_key n')))
         (store_of n')).2
  end.

(** The store after [n] requests to POST /api/chat for the one session
    ["s1"]. *)
Fixpoint talk (n : nat) : conversations :=
  match n with
  | 0 => ∅
  | S n' => (api_chat (failing 503) (json_request (hello "s1")) (talk n')).2
  end.

(** One request to one of the handlers that write the store. *)
Inductive step : conversations -> conversations -> Prop :=
  | step_chat e rq c : step c (chat e rq c).2
  | step_api_chat e rq c : step c (api_chat e rq c).2
  | step_clear session_id c : step c (clear_conversation session_id c).2.

(** The stores the server can be in, starting empty. *)
Definition reachable (c : conversations) : Prop := rtc step ∅ c.

(** Every session starts with a message of role ["system"]. *)
Definition system_first (c : conversations) : Prop :=
  forall k l, c !! k = Some l ->
    exists m rest, l = m :: rest /\ role m = "system".

(** ** The other endpoints *)

(** [len(s)]: the number of code points, that is of bytes that do not
    continue a multi-byte character. *)
Fixpoint py_len (s : string) : Z :=
  match s with
  | EmptyString => 0
  | String a s' =>
      let n := N_of_ascii a in
      ((if (128 <=? n)%N && (n <=? 191)%N then 0 else 1) + py_len s')%Z
  end.

(** The probe of [validate_groq_api_key]: one user message, of which only
    the status code of the answer is read; any exception gives [False]. *)
Definition probe_messages : list message := [Message "user" "Hello"].

Definition validate_groq_api_key (e : env) : bool :=
  match groq e probe_messages with
  | PostRaises _ => false
  | Responded status_code _ => bool_decide (status_code = 200%Z)
  end.

(** GET /health *)
Definition health_check (e : env) (c : conversations) : response :=
  let groq_status := validate_groq_api_key e in
  Response 200
    [("status", JStr "healthy");
     ("message", JStr "Fixed Gromo Coach API is running!");
     ("groq_api_status", JStr (if groq_status then "connected" else "disconnected"));
     ("active_conversations", JNum (Z.of_nat (size c)));
     ("timestamp", JStr (now e))].

(** GET /test_groq.  [generate_groq_response] returns a string whatever
    the provider does, so the [except] clause of the handler is not
    entered. *)
Definition test_messages : list message :=
  [Message "system" "You are Gromo Coach. Respond with the 5-section structure.";
   Message "user" "Test if you're working properly with a simple hello."].

Definition test_groq (e : env) : response :=
  let test_response := generate_groq_response e test_messages in
  Response 200
    [("status", JStr "success");
     ("message", JStr "Groq API is working!");
     ("test_response", JStr test_response);
     ("api_key_valid", JBool true);
     ("response_length",
       JNum (if decide (test_response = "") then 0 else py_len test_response))].

(** The answer of GET /conversation_history/<session_id>: its status, its
    scalar fields, and its [history] field. *)
Record history_response := HistoryResponse {
  h_status : Z;
  h_body : list (string * jval);
  h_history : list message
}.

(** GET /conversation_history/<session_id> *)
Definition get_conversation_history (session_id : string) (c : conversations)
    : history_response :=
  match c !! session_id with
  | Some conv =>
      let history := filter (fun msg => role msg <> "system") conv in
      HistoryResponse 200
        [("success", JBool true);
         ("message_count", JNum (Z.of_nat (length history)));
         ("session_id", JStr session_id)]
        history
  | None =>
      HistoryResponse 404
        [("success", JBool false); ("error", JStr "Session not found")]
        []
  end.

(** ** Further notions used to state the properties *)

(** A list of turns: a user message and the assistant message that
    answers it, any number of times. *)
Inductive turns : list message -> Prop :=
  | turns_nil : turns []
  | turns_cons u a l :
      role u = "user" -> role a = "assistant" -> turns l -> turns (u :: a :: l).

(** A session as the handlers build it: the system message, then at least
    one turn. *)
Definition transcript (l : list message) : Prop :=
  exists m tl, l = m :: tl /\ role m = "system" /\ tl <> [] /\ turns tl.

(** In the store, every session is a transcript. *)
Definition transcripts (c : conversations) : Prop :=
  forall k l, c !! k = Some l -> transcript l.

(** One request to POST /chat or to POST /clear_conversation. *)
Inductive chat_step : conversations -> conversations -> Prop :=
  | chat_step_chat e rq c : chat_step c (chat e rq c).2
  | chat_step_clear session_id c : chat_step c (clear_conversation session_id c).2.

(** The stores the server can be in when POST /api/chat is never used. *)
Definition chat_reachable (c : conversations) : Prop := rtc chat_step ∅ c.

(** A request to POST /chat for the given session. *)
Definition greet (session_id : string) : fields :=
  Fields (Some session_id) None (Some "Hi") None None None None None None None false.

(** The store after [n] requests to POST /chat, one for each of the
    session keys ["s0"], ["s1"], ..., while the provider answers 503. *)
Fixpoint chat_store_of (n : nat) : conversations :=
  match n with
  | 0 => ∅
  | S n' =>
      (chat (failing 503) (json_request (greet (session_key n')))
         (chat_store_of n')).2
  end.

(** * Properties *)

(** ** The model on concrete inputs *)

Example strip_ascii : strip (utf8 [32; 9; 72; 105; 32; 33; 10; 32]%N) = "Hi !".
Proof. reflexivity. Qed.

Example strip_unicode :
  strip (utf8 [226; 128; 168; 65; 66; 194; 160; 32]%N) = "AB".
Proof. reflexivity. Qed.

Example sorted_sessions_lexical :
  take 5 (sorted_sessions (store_of 12)) = ["s0"; "s1"; "s10"; "s11"; "s2"].
Proof. by vm_compute. Qed.

Example api_error_reason :
  generate_groq_response (failing 404) []
    = generate_fallback_response (Some "API Error 404").
Proof. reflexivity. Qed.

(** The first request for session ["s1"]: the session is created with the
    system message, then the user message ["Hello"], then the reply. *)
Example chat_first_request :
  let data := Fields (Some "s1") None (Some "Hello") None None None None None
                None None false in
  let '(r, c) := chat (answering "Namaste") (json_request data) ∅ in
  status r = 200%Z /\ field "success" r = Some (JBool true)
  /\ field "message_count" r = Some (JNum 2)
  /\ c !! "s1" = Some [Message "system" (chat_system_prompt data);
                        Message "user" "Hello";
                        Message "assistant" "Namaste"].
Proof. by vm_compute. Qed.

(** ** Substrings *)

Section contains_lemmas.

Lemma startswith_app_l (p s t : string) :
  startswith p s = true -> startswith p (s +:+ t) = true.
Proof.
  revert s. induction p as [|a p IH]; intros [|b s]; simpl; try done.
  destruct (Ascii.eqb a b); [apply IH | done].
Qed.

Lemma startswith_refl (p : string) : startswith p p = true.
Proof. induction p as [|a p IH]; simpl; [done|]. by rewrite Ascii.eqb_refl. Qed.

Lemma contains_refl (s : string) : contains s s = true.
Proof. destruct s; [done|]. cbn [contains]. by rewrite startswith_refl. Qed.

Lemma contains_empty (s : string) : contains "" s = true.
Proof. by destruct s. Qed.

Lemma contains_app_l (n a b : string) :
  contains n a = true -> contains n (a +:+ b) = true.
Proof.
  induction a as [|x a IH]; simpl.
  - rewrite orb_false_r. destruct n; [|done]. intros _. apply contains_empty.
  - intros [H|H]%orb_true_iff; apply orb_true_iff.
    + left. by apply (startswith_app_l n (String x a) b).
    + right. by apply IH.
Qed.

Lemma contains_app_r (n a b : string) :
  contains n b = true -> contains n (a +:+ b) = true.
Proof.
  intros H. induction a as [|x a IH]; simpl; [done|].
  rewrite IH. apply orb_true_r.
Qed.

Lemma contains_middle (n a b : string) : contains n (a +:+ n +:+ b) = true.
Proof. apply contains_app_r, contains_app_l, contains_refl. Qed.

Lemma contains_py_or (v : option string) (d : string) :
  contains (default "" v) (py_or v d) = true.
Proof.
  destruct v as [[|a s]|]; simpl py_or; simpl default;
    [apply contains_empty | apply contains_refl | apply contains_empty].
Qed.

End contains_lemmas.

(** ** Fallback generator *)

Lemma fallback_has_all_markers (reason : option string) :
  has_all_markers (generate_fallback_response reason) = true.
Proof.
  unfold has_all_markers, section_markers, generate_fallback_response.
  cbn [forallb]. rewrite !andb_true_iff.
  split; [apply contains_app_l; by vm_compute|].
  repeat (split; [apply contains_app_r, contains_app_r; by vm_compute|]).
  done.
Qed.

Lemma fallback_nonempty (reason : option string) :
  generate_fallback_response reason <> "".
Proof. done. Qed.

(** C7. [generate_fallback_response] is a function of its argument alone;
    for every optional reason, [None] included, its result contains the
    five section markers, and it is the quick-summary marker line, then a
    summary, then a blank line and the detailed-explanation marker: the
    summary contains the reason that was supplied, and is the default
    message when none was. *)
Theorem generate_fallback_response_structure (reason : option string) :
  has_all_markers (generate_fallback_response reason) = true /\
  exists summary rest : string,
    generate_fallback_response reason
      = QUICK_SUMMARY +:+ nl +:+ summary +:+ nl +:+ nl
          +:+ DETAILED_EXPLANATION +:+ rest
    /\ match reason with
       | Some r => contains r summary = true
       | None => summary = fallback_default
       end.
Proof.
  split; [apply fallback_has_all_markers|].
  exists (py_or reason fallback_default).
  eexists. split.
  - unfold generate_fallback_response, fallback_head, fallback_tail.
    cbn [String.app QUICK_SUMMARY nl DETAILED_EXPLANATION].
    repeat f_equal; reflexivity.
  - destruct reason as [r|]; [|done]. apply (contains_py_or (Some r)).
Qed.

(** ** Provider gateway *)

(** Exhibits the reason a fallback carries and checks it is not empty. *)
Ltac fallback_reason :=
  eexists; split; [|reflexivity]; simpl; discriminate.

Section gateway.

Variable e : env.
Variable messages : list message.

Let result : string := generate_groq_response e messages.

Lemma handle_exception_fallback (ex : py_exception) :
  exists reason : string,
    reason <> "" /\
    handle_exception ex = generate_fallback_response (Some reason).
Proof.
  unfold handle_exception.
  destruct (is_Timeout ex); [fallback_reason|].
  destruct (is_ConnectionError ex); [fallback_reason|].
  destruct (is_RequestException ex); [fallback_reason|].
  destruct (is_JSONDecodeError ex); fallback_reason.
Qed.


(** Either the first choice of a 200 response is returned, or a fallback
    carrying a non-empty reason. *)
Lemma generate_groq_response_total :
  (exists text, groq e messages = Responded 200 (FirstChoice text)
                /\ result = text)
  \/ (exists reason, reason <> ""
        /\ result = generate_fallback_response (Some reason)).
Proof.
  unfold result, generate_groq_response.
  destruct (groq e messages) as [ex|code bd].
  { right. apply handle_exception_fallback. }
  destruct (decide (code = 200%Z)) as [->|?].
  { destruct bd as [ex| |text].
    - right. apply handle_exception_fallback.
    - right. fallback_reason.
    - left. by eexists. }
  right. repeat case_decide; fallback_reason.
Qed.

End gateway.



(** ** Stores built by requests *)

Lemma store_of_reachable (n : nat) : reachable (store_of n).
Proof.
  unfold reachable. induction n as [|n IH]; [done|].
  eapply rtc_r; [exact IH|]. apply step_api_chat.
Qed.

Lemma talk_reachable (n : nat) : reachable (talk n).
Proof.
  unfold reachable. induction n as [|n IH]; [done|].
  eapply rtc_r; [exact IH|]. apply step_api_chat.
Qed.

(** ** Eviction *)

Section eviction.

Implicit Types (c : conversations) (k : string) (ks : list string).

Lemma sorted_sessions_Permutation c :
  sorted_sessions c ≡ₚ (map_to_list c).*1.
Proof. apply merge_sort_Permutation. Qed.

Lemma sorted_sessions_NoDup c : NoDup (sorted_sessions c).
Proof.
  rewrite sorted_sessions_Permutation. apply NoDup_fst_map_to_list.
Qed.

Lemma length_sorted_sessions c : length (sorted_sessions c) = size c.
Proof.
  rewrite sorted_sessions_Permutation, length_fmap.
  apply length_map_to_list.
Qed.

Lemma elem_of_sorted_sessions c k :
  k ∈ sorted_sessions c <-> is_Some (c !! k).
Proof.
  rewrite sorted_sessions_Permutation, list_elem_of_fmap. split.
  - intros ([k' l] & Hk & H%elem_of_map_to_list). simpl in Hk. subst k'.
    by exists l.
  - intros [l H]. exists (k, l). split; [done|]. by apply elem_of_map_to_list.
Qed.

Lemma sorted_sessions_sorted c : StronglySorted String.le (sorted_sessions c).
Proof. apply (StronglySorted_merge_sort String.le). Qed.

Lemma del_all_lookup ks c k :
  del_all ks c !! k = if decide (k ∈ ks) then None else c !! k.
Proof.
  unfold del_all. revert c. induction ks as [|k' ks IH]; intros c; cbn [foldl].
  - case_decide as H; [|done]. by apply elem_of_nil in H.
  - rewrite IH. destruct (decide (k = k')) as [->|Hne].
    + rewrite lookup_delete_eq.
      rewrite (decide_True (P := k' ∈ k' :: ks)) by left.
      by case_decide.
    + rewrite lookup_delete_ne by done.
      destruct (decide (k ∈ ks)) as [Hin|Hin];
        destruct (decide (k ∈ k' :: ks)) as [Hin'|Hin']; try done.
      * destruct Hin'. by right.
      * apply elem_of_cons in Hin' as [?|?]; done.
Qed.

Lemma del_all_size ks c :
  NoDup ks -> (forall k, k ∈ ks -> is_Some (c !! k)) ->
  size (del_all ks c) = size c - length ks.
Proof.
  unfold del_all. revert c.
  induction ks as [|k ks IH]; intros c Hnd Hin; simpl; [lia|].
  apply NoDup_cons in Hnd as [Hk Hnd].
  rewrite IH; [|done|].
  - rewrite map_size_delete_Some by (apply Hin; left). lia.
  - intros k' Hk'. rewrite lookup_delete_ne by set_solver.
    apply Hin. by right.
Qed.

Lemma batch_NoDup c : NoDup (batch c).
Proof.
  pose proof (sorted_sessions_NoDup c) as H.
  rewrite <-(take_drop 10 (sorted_sessions c)) in H.
  by apply NoDup_app in H as [? _].
Qed.

Lemma batch_present c k : k ∈ batch c -> is_Some (c !! k).
Proof.
  intros H. apply elem_of_sorted_sessions.
  unfold batch in H. by apply elem_of_take in H as (i & ?%list_elem_of_lookup_2 & ?).
Qed.

Lemma length_batch c : length (batch c) = size c `min` 10.
Proof. unfold batch. rewrite length_take, length_sorted_sessions. lia. Qed.

(** Every key of the batch is below every key that is kept. *)
Lemma batch_smallest c k k' :
  k ∈ batch c -> is_Some (c !! k') -> k' ∉ batch c -> String.le k k'.
Proof.
  intros Hk Hk' Hout.
  apply elem_of_sorted_sessions in Hk'.
  rewrite <-(take_drop 10 (sorted_sessions c)) in Hk'.
  apply elem_of_app in Hk' as [?|Hk']; [done|].
  apply (StronglySorted_app_1_elem_of String.le
           (batch c) (drop 10 (sorted_sessions c))); [|done..].
  unfold batch. rewrite take_drop. apply sorted_sessions_sorted.
Qed.

Lemma clean_old_conversations_lookup c k :
  clean_old_conversations c !! k =
    if decide (MAX_CONVERSATIONS < size c)
    then (if decide (k ∈ batch c) then None else c !! k)
    else c !! k.
Proof.
  unfold clean_old_conversations. case_decide; [|done].
  apply del_all_lookup.
Qed.

Lemma clean_old_conversations_size c :
  size (clean_old_conversations c) =
    if decide (MAX_CONVERSATIONS < size c) then size c - 10 else size c.
Proof.
  unfold clean_old_conversations. case_decide as H; [|done].
  fold (batch c). rewrite del_all_size.
  - rewrite length_batch. unfold MAX_CONVERSATIONS in H. lia.
  - apply batch_NoDup.
  - apply batch_present.
Qed.

Lemma clean_old_conversations_id c :
  size c <= MAX_CONVERSATIONS -> clean_old_conversations c = c.
Proof. unfold clean_old_conversations. intros. case_decide; [lia|done]. Qed.

(** A pass never creates a session nor changes the messages of one. *)
Lemma clean_old_conversations_Some c k l :
  clean_old_conversations c !! k = Some l -> c !! k = Some l.
Proof.
  rewrite clean_old_conversations_lookup. by repeat case_decide.
Qed.

End eviction.

(** C6. When the store holds more than [MAX_CONVERSATIONS] sessions, one
    pass removes exactly ten of them, those with the smallest keys: the ten
    removed keys are distinct keys of the store, each is below every key
    that is kept, and every other session is left as it was.  When the
    store holds at most [MAX_CONVERSATIONS] sessions it is unchanged. *)
Theorem clean_old_conversations_removes_ten_smallest (c : conversations) :
  (MAX_CONVERSATIONS < size c ->
   exists removed : list string,
     length removed = 10 /\ NoDup removed
     /\ (forall k, k ∈ removed -> is_Some (c !! k))
     /\ (forall k k', k ∈ removed -> is_Some (c !! k') -> k' ∉ removed ->
           String.le k k' /\ k <> k')
     /\ (forall k, clean_old_conversations c !! k =
                   if decide (k ∈ removed) then None else c !! k)
     /\ size (clean_old_conversations c) = size c - 10)
  /\ (size c <= MAX_CONVERSATIONS -> clean_old_conversations c = c).
Proof.
  split; [|apply clean_old_conversations_id].
  intros Hover. exists (batch c). split_and!.
  - rewrite length_batch. unfold MAX_CONVERSATIONS in Hover. lia.
  - apply batch_NoDup.
  - apply batch_present.
  - intros k k' Hk Hk' Hout. split; [by apply (batch_smallest c)|].
    by intros ->.
  - intros k. rewrite clean_old_conversations_lookup. by rewrite decide_True.
  - rewrite clean_old_conversations_size. by rewrite decide_True.
Qed.

Lemma clean_old_conversations_removes_ten_smallest_witness :
  size (clean_old_conversations (store_of 101)) = 101 - 10
  /\ clean_old_conversations (store_of 3) = store_of 3.
Proof.
  split.
  - destruct (proj1 (clean_old_conversations_removes_ten_smallest (store_of 101)))
      as (removed & _ & _ & _ & _ & _ & Hsize).
    + vm_compute. lia.
    + rewrite Hsize. by vm_compute.
  - apply (proj2 (clean_old_conversations_removes_ten_smallest (store_of 3))).
    vm_compute. lia.
Defined.

(** C1, as stated, fails: the store that 111 first requests to
    POST /api/chat build holds 111 sessions, and still 101 after a pass. *)
Lemma clean_old_conversations_over_capacity :
  reachable (store_of 111)
  /\ size (store_of 111) = 111
  /\ size (clean_old_conversations (store_of 111)) = 101
  /\ MAX_CONVERSATIONS < size (clean_old_conversations (store_of 111)).
Proof.
  split; [apply store_of_reachable|].
  rewrite clean_old_conversations_size.
  vm_compute. split_and!; [done..|lia].
Qed.

(** C1, amended. A pass over a store of [n] sessions leaves exactly [n]
    sessions when [n] is at most [MAX_CONVERSATIONS], and exactly [n - 10]
    when it is more: so at most [max MAX_CONVERSATIONS (n - 10)], which is
    at most [MAX_CONVERSATIONS] when the store held at most
    [MAX_CONVERSATIONS + 10]; and more than [MAX_CONVERSATIONS] when the
    store held more than [MAX_CONVERSATIONS + 10]. *)
Theorem clean_old_conversations_bound (c : conversations) :
  (size c <= MAX_CONVERSATIONS -> size (clean_old_conversations c) = size c)
  /\ (MAX_CONVERSATIONS < size c ->
      size (clean_old_conversations c) = size c - 10)
  /\ size (clean_old_conversations c) <= MAX_CONVERSATIONS `max` (size c - 10)
  /\ (size c <= MAX_CONVERSATIONS + 10 ->
      size (clean_old_conversations c) <= MAX_CONVERSATIONS)
  /\ (MAX_CONVERSATIONS + 10 < size c ->
      MAX_CONVERSATIONS < size (clean_old_conversations c)).
Proof.
  rewrite clean_old_conversations_size. unfold MAX_CONVERSATIONS.
  case_decide; split_and!; lia.
Qed.

Lemma clean_old_conversations_bound_witness :
  size (clean_old_conversations (store_of 3)) = 3
  /\ size (clean_old_conversations (store_of 105)) = 95
  /\ size (clean_old_conversations (store_of 105)) <= MAX_CONVERSATIONS.
Proof.
  split_and!.
  - rewrite (proj1 (clean_old_conversations_bound (store_of 3)));
      [by vm_compute|vm_compute; lia].
  - rewrite (proj1 (proj2 (clean_old_conversations_bound (store_of 105))));
      [by vm_compute|vm_compute; lia].
  - apply (clean_old_conversations_bound (store_of 105)). vm_compute. lia.
Defined.

(** ** Clearing a session *)

(** C8. [clear_conversation] answers with success whether or not the
    session exists, leaves the store without it and with every other
    session as it was; a second call answers the same and changes
    nothing. *)
Theorem clear_conversation_idempotent (session_id : string) (c : conversations) :
  let '(r1, c1) := clear_conversation session_id c in
  let '(r2, c2) := clear_conversation session_id c1 in
  status r1 = 200%Z /\ field "success" r1 = Some (JBool true)
  /\ c1 !! session_id = None
  /\ (forall k, k <> session_id -> c1 !! k = c !! k)
  /\ r2 = r1 /\ c2 = c1 /\ c2 !! session_id = None.
Proof.
  unfold clear_conversation.
  assert ((if bool_decide (is_Some (c !! session_id))
           then delete session_id c else c) = delete session_id c) as ->.
  { case_bool_decide as H; [done|]. symmetry. apply delete_id.
    by apply eq_None_not_Some. }
  rewrite lookup_delete_eq. rewrite bool_decide_false by (by intros [? ?]).
  split_and!; try done.
  - intros k ?. by rewrite lookup_delete_ne.
  - apply lookup_delete_eq.
Qed.

(** ** Stripping *)

Section strip_lemmas.

Lemma lstrip_token (t s : string) :
  t ∈ py_whitespace -> lstrip (t +:+ s) = lstrip s.
Proof.
  unfold py_whitespace. cbn [fmap list_fmap]. intros H.
  repeat (apply elem_of_cons in H as [->|H]; [reflexivity|]).
  by apply elem_of_nil in H.
Qed.

Lemma lstrip_whitespace_only (s : string) : whitespace_only s -> lstrip s = "".
Proof.
  intros (toks & Htoks & ->).
  induction Htoks as [|t toks Ht _ IH]; [done|].
  cbn [foldr]. by rewrite lstrip_token.
Qed.

Lemma strip_whitespace_only (s : string) : whitespace_only s -> strip s = "".
Proof. intros H. unfold strip. by rewrite lstrip_whitespace_only. Qed.

Lemma blank_strip (message : option string) :
  blank message -> strip (default "" message) = "".
Proof. destruct message; [apply strip_whitespace_only | done]. Qed.

Lemma valid_message_present (data : fields) :
  valid_message data -> dict_empty data = false.
Proof.
  unfold valid_message, dict_empty. destruct (f_message data); [|done].
  intros _. rewrite (bool_decide_false (Some _ = None)) by done.
  by rewrite !andb_false_r.
Qed.

End strip_lemmas.

(** ** One turn of POST /chat *)

Section chat_turn.

Variable e : env.
Variable data : fields.
Variable c : conversations.

Let session_id := chat_session_id e data.
Let base := chat_base e data c.
Let reply := chat_reply e data base.

(** What a request with a valid message does: the list it appends to
    receives the user message and the reply, is trimmed, and is stored
    under the session key in the store left by the eviction pass. *)
Lemma chat_valid :
  valid_message data ->
  chat e (json_request data) c =
    (Response 200
       [("success", JBool true);
        ("response", JStr reply);
        ("session_id", JStr session_id);
        ("message_count",
          JNum (Z.of_nat
                  (length (trim ((base ++ [user_turn data])
                                   ++ [Message "assistant" reply]))) - 1));
        ("timestamp", JStr (now e));
        ("response_type", JStr "comprehensive_structured")],
     <[session_id :=
         trim ((base ++ [user_turn data]) ++ [Message "assistant" reply])]>
       (clean_old_conversations c)).
Proof.
  intros Hvalid. subst reply base session_id.
  unfold chat, json_request, chat_reply, chat_base, chat_session_id, user_turn.
  cbn [is_json get_json negb].
  rewrite (valid_message_present data Hvalid).
  rewrite decide_False by exact Hvalid.
  fold (chat_system_prompt data).
  destruct (clean_old_conversations c !! default (uuid4 e) (f_session_id data))
    as [conv|] eqn:Hconv.
  - rewrite bool_decide_false by done. cbn [orb].
    destruct (default false (f_reset data)).
    + rewrite lookup_insert_eq. by rewrite insert_insert_eq.
    + by rewrite Hconv.
  - rewrite bool_decide_true by done. cbn [orb].
    rewrite lookup_insert_eq. by rewrite insert_insert_eq.
Qed.

(** What a request with a blank message does. *)
Lemma chat_blank :
  blank (f_message data) ->
  status (chat e (json_request data) c).1 = 400%Z
  /\ field "success" (chat e (json_request data) c).1 = Some (JBool false)
  /\ (chat e (json_request data) c).2 = clean_old_conversations c.
Proof.
  intros Hblank%blank_strip.
  unfold chat, json_request. cbn [is_json get_json negb].
  destruct (dict_empty data); [done|].
  by rewrite decide_True.
Qed.

End chat_turn.

Lemma or_fallback_nonempty (ai_response why : string) :
  or_fallback ai_response why <> "".
Proof. unfold or_fallback. case_decide; [apply fallback_nonempty | done]. Qed.

Lemma chat_reply_cases (e : env) (data : fields) (history : list message) :
  (exists messages, groq e messages = Responded 200 (FirstChoice (chat_reply e data history)))
  \/ has_all_markers (chat_reply e data history) = true.
Proof.
  unfold chat_reply, or_fallback. case_decide as Hempty.
  { right. apply fallback_has_all_markers. }
  destruct (generate_groq_response_total e (history ++ [user_turn data]))
    as [(text & Hgroq & ->)|(reason & _ & ->)].
  - left. eauto.
  - right. apply fallback_has_all_markers.
Qed.

(** ** Trimming *)

Lemma trim_short (l : list message) :
  length l <= MAX_MESSAGES_PER_CONVERSATION -> trim l = l.
Proof. intros. unfold trim. case_decide; [lia|done]. Qed.

Lemma trim_long (m0 : message) (tl : list message) :
  MAX_MESSAGES_PER_CONVERSATION < length (m0 :: tl) ->
  trim (m0 :: tl) = m0 :: drop (length tl - 40) tl
  /\ length (drop (length tl - 40) tl) = 40.
Proof.
  unfold trim, MAX_MESSAGES_PER_CONVERSATION. cbn [length]. intros Hlen.
  rewrite decide_True by done. split.
  - replace (S (length tl) - 40) with (S (length tl - 40)) by lia. done.
  - rewrite length_drop. lia.
Qed.

(** ** One turn of POST /api/chat *)

Lemma api_chat_valid (e : env) (data : fields) (c : conversations) :
  valid_message data ->
  let session_id := api_chat_session_id e data in
  let base := api_chat_base e data c in
  let reply := api_chat_reply e data base in
  api_chat e (json_request data) c =
    (Response 200
       [("success", JBool true);
        ("response", JStr reply);
        ("message", JStr reply);
        ("session_id", JStr session_id);
        ("timestamp", JStr (now e))],
     <[session_id := (base ++ [user_turn data]) ++ [Message "assistant" reply]]> c).
Proof.
  intros Hvalid session_id base reply. subst reply base session_id.
  unfold api_chat, json_request, api_chat_reply, api_chat_base,
    api_chat_session_id, user_turn.
  cbn [is_json get_json negb].
  rewrite decide_False by exact Hvalid.
  destruct (c !! py_or (f_sessionId data) (default (uuid4 e) (f_session_id data)))
    as [conv|] eqn:Hconv.
  - rewrite bool_decide_false by done. by rewrite Hconv.
  - rewrite bool_decide_true by done.
    rewrite lookup_insert_eq. by rewrite insert_insert_eq.
Qed.

(** ** The first message of a session *)

Section system_first.

Lemma trim_head (m0 : message) (tl : list message) :
  exists tl', trim (m0 :: tl) = m0 :: tl'.
Proof. unfold trim. case_decide; eauto. Qed.

Lemma system_first_insert (c : conversations) k m0 tl :
  role m0 = "system" -> system_first c -> system_first (<[k := m0 :: tl]> c).
Proof.
  intros Hrole Hc k' l. rewrite lookup_insert. case_decide.
  - intros [= <-]. eauto.
  - apply Hc.
Qed.

Lemma system_first_clean (c : conversations) :
  system_first c -> system_first (clean_old_conversations c).
Proof. intros Hc k l Hl%clean_old_conversations_Some. by apply (Hc k). Qed.

Lemma chat_base_head (e : env) (data : fields) (c : conversations) :
  system_first c ->
  exists m rest, chat_base e data c = m :: rest /\ role m = "system".
Proof.
  intros Hc. unfold chat_base.
  destruct (clean_old_conversations c !! chat_session_id e data)
    as [conv|] eqn:Hconv; [|by eauto].
  destruct (default false (f_reset data)); [by eauto|].
  apply clean_old_conversations_Some in Hconv. by apply (Hc _ _ Hconv).
Qed.

Lemma api_chat_base_head (e : env) (data : fields) (c : conversations) :
  system_first c ->
  exists m rest, api_chat_base e data c = m :: rest /\ role m = "system".
Proof.
  intros Hc. unfold api_chat_base.
  destruct (c !! api_chat_session_id e data) as [conv|] eqn:Hconv; [|by eauto].
  by apply (Hc _ _ Hconv).
Qed.

Lemma chat_system_first (e : env) (rq : request) (c : conversations) :
  system_first c -> system_first (chat e rq c).2.
Proof.
  intros Hc. pose proof (system_first_clean c Hc) as Hclean.
  destruct rq as [[|] [bad|[[|] err|data]]]; try exact Hclean.
  destruct (decide (valid_message data)) as [Hvalid|Hblank].
  - fold (json_request data). rewrite (chat_valid e data c Hvalid). cbn [snd].
    destruct (chat_base_head e data c Hc) as (m & rest & -> & Hm).
    cbn [app].
    destruct (trim_head m ((rest ++ [user_turn data])
        ++ [Message "assistant" (chat_reply e data (m :: rest))])) as [tl' ->].
    by apply system_first_insert.
  - unfold chat. cbn [is_json get_json negb].
    destruct (dict_empty data); [exact Hclean|].
    rewrite decide_True; [exact Hclean|].
    unfold valid_message in Hblank. by destruct (decide (strip (default "" (f_message data)) = "")).
Qed.

Lemma api_chat_system_first (e : env) (rq : request) (c : conversations) :
  system_first c -> system_first (api_chat e rq c).2.
Proof.
  intros Hc.
  destruct rq as [[|] [bad|[truth err|data]]]; try exact Hc.
  destruct (decide (valid_message data)) as [Hvalid|Hblank].
  - fold (json_request data). rewrite (api_chat_valid e data c Hvalid). cbn [snd].
    destruct (api_chat_base_head e data c Hc) as (m & rest & -> & Hm).
    by apply system_first_insert.
  - unfold api_chat. cbn [is_json get_json negb].
    rewrite decide_True; [exact Hc|].
    unfold valid_message in Hblank. by destruct (decide (strip (default "" (f_message data)) = "")).
Qed.

Lemma clear_conversation_system_first session_id (c : conversations) :
  system_first c -> system_first (clear_conversation session_id c).2.
Proof.
  intros Hc k l. unfold clear_conversation. cbn [snd].
  case_bool_decide; [|apply Hc].
  rewrite lookup_delete. case_decide; [done|apply Hc].
Qed.

(** In every store the server can reach, each session starts with its
    system message. *)
Lemma reachable_system_first (c : conversations) :
  reachable c -> system_first c.
Proof.
  unfold reachable. revert c. apply (rtc_ind_r (R := step)).
  - intros k l. by rewrite lookup_empty.
  - intros c1 c2 _ Hstep IH. destruct Hstep;
      auto using chat_system_first, api_chat_system_first,
        clear_conversation_system_first.
Qed.

End system_first.

(** ** Rejected and answered requests *)

(** C9, as stated, fails: with 101 sessions in the store, a request with
    an empty message for session ["s0"] is answered 400 and leaves the
    store without that session, which the eviction pass at the start of
    the handler has removed. *)
Lemma chat_blank_message_evicts :
  let data := Fields (Some "s0") None (Some "") None None None None None None None false in
  let c := store_of 101 in
  let '(r, c') := chat (failing 503) (json_request data) c in
  reachable c /\ blank (f_message data)
  /\ status r = 400%Z /\ is_Some (c !! "s0") /\ c' !! "s0" = None.
Proof.
  split; [apply store_of_reachable|]. split; [by exists []|].
  vm_compute. split_and!; by eauto.
Qed.

(** C9, amended. A request whose message is absent, empty or whitespace
    only is answered 400 with [success] false, and the store it leaves is
    the one the eviction pass leaves: no session is created or given other
    messages, and the store is unchanged when it held at most
    [MAX_CONVERSATIONS] sessions. *)
Theorem chat_blank_message_rejected (e : env) (data : fields) (c : conversations) :
  blank (f_message data) ->
  let '(r, c') := chat e (json_request data) c in
  status r = 400%Z /\ field "success" r = Some (JBool false)
  /\ c' = clean_old_conversations c
  /\ (forall k l, c' !! k = Some l -> c !! k = Some l)
  /\ (size c <= MAX_CONVERSATIONS -> c' = c).
Proof.
  intros Hblank.
  destruct (chat_blank e data c Hblank) as (Hstatus & Hsuccess & Hstore).
  destruct (chat e (json_request data) c) as [r c']. cbn [fst snd] in *.
  subst c'. split_and!; try done.
  - apply clean_old_conversations_Some.
  - apply clean_old_conversations_id.
Qed.

Lemma chat_blank_message_rejected_witness :
  let data := Fields (Some "s1") None (Some "  ") None None None None None None None false in
  let '(r, c') := chat (failing 503) (json_request data) (store_of 3) in
  status r = 400%Z /\ field "success" r = Some (JBool false)
  /\ c' = clean_old_conversations (store_of 3)
  /\ (forall k l, c' !! k = Some l -> store_of 3 !! k = Some l)
  /\ (size (store_of 3) <= MAX_CONVERSATIONS -> c' = store_of 3).
Proof.
  intros data.
  apply (chat_blank_message_rejected (failing 503) data (store_of 3)).
  exists [" "; " "]. split; [|reflexivity].
  repeat constructor; by vm_compute; set_solver.
Defined.

(** C4, as stated, fails: when the provider answers a valid request with
    the text ["Hello"], that text is the [response], and it contains none
    of the section markers. *)
Lemma chat_response_unstructured :
  let data := Fields (Some "s1") None (Some "Hi") None None None None None None None false in
  valid_message data /\
  let r := (chat (answering "Hello") (json_request data) ∅).1 in
  field "response" r = Some (JStr "Hello")
  /\ has_all_markers "Hello" = false.
Proof. vm_compute. by split_and!. Qed.

(** C4, amended. Every request with a valid message is answered 200 with
    [success] true and a non-empty [response].  The provider is asked with
    the messages of the session followed by the user message of the turn:
    when it answers 200 with a non-empty first choice, the response is
    that text, as it is and unchecked; in every other case, an empty first
    choice included, the response is a fallback, which contains the five
    section markers. *)
Theorem chat_response_nonempty (e : env) (data : fields) (c : conversations) :
  valid_message data ->
  let r := (chat e (json_request data) c).1 in
  let asked := chat_base e data c ++ [user_turn data] in
  status r = 200%Z /\ field "success" r = Some (JBool true)
  /\ exists text : string,
       field "response" r = Some (JStr text) /\ text <> ""
       /\ (forall answer, groq e asked = Responded 200 (FirstChoice answer) ->
             answer <> "" -> text = answer)
       /\ ((forall answer, groq e asked = Responded 200 (FirstChoice answer) ->
              answer = "") ->
           has_all_markers text = true
           /\ exists reason, reason <> ""
                /\ text = generate_fallback_response (Some reason))
       /\ ((exists messages, groq e messages = Responded 200 (FirstChoice text))
           \/ has_all_markers text = true).
Proof.
  intros Hvalid r asked. subst r asked.
  rewrite (chat_valid e data c Hvalid). cbn [fst].
  split_and!; try done.
  exists (chat_reply e data (chat_base e data c)).
  split_and!; try done.
  - apply or_fallback_nonempty.
  - intros answer Hgroq Hanswer.
    unfold chat_reply, or_fallback, generate_groq_response. rewrite Hgroq.
    destruct (decide (200%Z = 200%Z)); [|done]. by rewrite decide_False.
  - intros Hno. unfold chat_reply, or_fallback. case_decide as Hempty.
    { split; [apply fallback_has_all_markers|]. fallback_reason. }
    destruct (generate_groq_response_total e
                (chat_base e data c ++ [user_turn data]))
      as [(answer & Hgroq & Hres)|(reason & Hreason & Hres)].
    + destruct Hempty. rewrite Hres. by apply (Hno answer).
    + rewrite Hres. split; [apply fallback_has_all_markers|]. by eauto.
  - apply chat_reply_cases.
Qed.

Lemma chat_response_nonempty_witness :
  let data := Fields (Some "s1") None (Some "Hi") None None None None None None None false in
  field "response" (chat (answering "Namaste") (json_request data) ∅).1
    = Some (JStr "Namaste")
  /\ exists text : string,
       field "response" (chat (failing 503) (json_request data) ∅).1
         = Some (JStr text)
       /\ has_all_markers text = true.
Proof.
  intros data. split.
  - destruct (chat_response_nonempty (answering "Namaste") data ∅)
      as (_ & _ & text & -> & _ & Hrelay & _); [by vm_compute|].
    by rewrite (Hrelay "Namaste").
  - destruct (chat_response_nonempty (failing 503) data ∅)
      as (_ & _ & text & Hfield & _ & _ & Hfallback & _); [by vm_compute|].
    exists text. split; [exact Hfield|]. by apply Hfallback.
Defined.

(** ** Trimming a session *)

(** C2. When the two appends of a turn take a stored session beyond
    [MAX_MESSAGES_PER_CONVERSATION], the session that is stored is its
    first message, unchanged, followed by the last forty messages of the
    rest: the oldest messages after the first are the ones dropped, and
    the length is [1 + (MAX_MESSAGES_PER_CONVERSATION - 10)], forty-one.
    In a store the server can reach, that first message is the system
    message the session was created with. *)
Theorem chat_trims_to_system_and_last_forty (e : env) (data : fields)
    (c : conversations) (system_message : message) (rest : list message) :
  valid_message data ->
  default false (f_reset data) = false ->
  clean_old_conversations c !! chat_session_id e data
    = Some (system_message :: rest) ->
  MAX_MESSAGES_PER_CONVERSATION < length (system_message :: rest) + 2 ->
  let reply := chat_reply e data (system_message :: rest) in
  (exists dropped kept : list message,
     rest ++ [user_turn data; Message "assistant" reply] = dropped ++ kept
     /\ length kept = 40
     /\ (chat e (json_request data) c).2 !! chat_session_id e data
          = Some (system_message :: kept)
     /\ length (system_message :: kept)
          = 1 + (MAX_MESSAGES_PER_CONVERSATION - 10))
  /\ (reachable c -> role system_message = "system").
Proof.
  intros Hvalid Hreset Hconv Hlen reply. split.
  - rewrite (chat_valid e data c Hvalid). cbn [snd].
    rewrite lookup_insert_eq.
    assert (chat_base e data c = system_message :: rest) as ->.
    { unfold chat_base. by rewrite Hconv, Hreset. }
    fold reply.
    set (tl := rest ++ [user_turn data; Message "assistant" reply]).
    assert (((system_message :: rest) ++ [user_turn data])
              ++ [Message "assistant" reply] = system_message :: tl) as ->.
    { subst tl. by rewrite <-!app_assoc. }
    assert (length tl = length rest + 2) as Htl.
    { subst tl. by rewrite length_app. }
    destruct (trim_long system_message tl) as [-> Hkept].
    { cbn [length] in *. lia. }
    exists (take (length tl - 40) tl), (drop (length tl - 40) tl).
    split_and!; try done.
    + by rewrite take_drop.
    + cbn [length]. by rewrite Hkept.
  - intros Hreach%reachable_system_first.
    apply clean_old_conversations_Some in Hconv.
    destruct (Hreach _ _ Hconv) as (m & tl & [= <- _] & Hrole). exact Hrole.
Qed.

Lemma chat_trims_to_system_and_last_forty_witness :
  let data := Fields (Some "s1") None (Some "Hi") None None None None None None None false in
  let c : conversations := {[ "s1" := long_session 48 ]} in
  exists dropped kept : list message,
    replicate 48 (Message "user" "again")
      ++ [user_turn data;
          Message "assistant" (chat_reply (failing 503) data (long_session 48))]
      = dropped ++ kept
    /\ length kept = 40
    /\ (chat (failing 503) (json_request data) c).2 !! "s1"
         = Some (Message "system" "prompt" :: kept)
    /\ length (Message "system" "prompt" :: kept)
         = 1 + (MAX_MESSAGES_PER_CONVERSATION - 10).
Proof.
  intros data c.
  refine (proj1 (chat_trims_to_system_and_last_forty (failing 503) data c
                   (Message "system" "prompt")
                   (replicate 48 (Message "user" "again")) _ _ _ _)).
  - by vm_compute.
  - reflexivity.
  - by vm_compute.
  - vm_compute. lia.
Defined.

(** ** Session creation and the system prompt *)

Section prompt_lemmas.

Variables agent_name client_name client_age client_income client_goal
  : option string.
Variable language : string.

Let prompt : string :=
  generate_enhanced_system_prompt agent_name client_name client_age
    client_income client_goal language.

Lemma prompt_without_profile :
  truthy agent_name && truthy client_name = false ->
  prompt = prompt_head +:+ prompt_tail.
Proof.
  subst prompt. unfold generate_enhanced_system_prompt. by intros ->.
Qed.

Lemma prompt_with_profile :
  truthy agent_name && truthy client_name = true ->
  prompt = prompt_head
             +:+ session_info agent_name client_name client_age
                   client_income client_goal language
             +:+ prompt_tail.
Proof.
  subst prompt. unfold generate_enhanced_system_prompt. by intros ->.
Qed.

(** The profile block carries each of its six values as it is. *)
Lemma session_info_contains :
  let info := session_info agent_name client_name client_age client_income
                client_goal language in
  contains (fstr agent_name) info = true
  /\ contains (fstr client_name) info = true
  /\ contains (py_or client_age "Not specified") info = true
  /\ contains ("₹" +:+ py_or client_income "Not specified") info = true
  /\ contains (py_or client_goal "General financial guidance") info = true
  /\ contains (language +:+ nl) info = true.
Proof.
  unfold session_info. split_and!.
  - apply contains_middle.
  - do 2 apply contains_app_r. apply contains_middle.
  - do 4 apply contains_app_r. apply contains_middle.
  - do 6 apply contains_app_r.
    apply (contains_app_r _ "
- **Monthly Income**: "
             (("₹" +:+ py_or client_income "Not specified") +:+ _)).
    apply contains_app_l, contains_refl.
  - do 8 apply contains_app_r. apply contains_middle.
  - do 11 apply contains_app_r. apply contains_refl.
Qed.

Lemma prompt_has_all_markers : has_all_markers prompt = true.
Proof.
  subst prompt.
  unfold has_all_markers, section_markers, generate_enhanced_system_prompt.
  cbn [forallb]. rewrite !andb_true_iff.
  repeat (split; [apply contains_app_r, contains_app_r; by vm_compute|]).
  done.
Qed.

End prompt_lemmas.

Lemma truthy_default (v : option string) : truthy (Some (default "" v)) = truthy v.
Proof. by destruct v as [[|??]|]. Qed.

Lemma py_or_default (v : option string) (d : string) :
  py_or (Some (default "" v)) d = py_or v d.
Proof. by destruct v as [[|??]|]. Qed.

(** C5, as stated, fails: a request for a new session that supplies a
    client name and age but no agent name gets a system prompt that
    contains neither of them, and no placeholder for the fields that were
    left out. *)
Lemma chat_profile_not_embedded :
  let data := Fields (Some "s1") None (Some "Hi") None (Some "Asha")
                (Some "31") None None None None false in
  exists (prompt : string) (turn : list message),
    (chat (failing 503) (json_request data) ∅).2 !! "s1"
      = Some (Message "system" prompt :: turn)
    /\ contains "Asha" prompt = false
    /\ contains "31" prompt = false
    /\ contains "Not specified" prompt = false.
Proof.
  intros data. eexists. eexists. split; [by vm_compute|].
  by vm_compute.
Qed.

(** C5, amended. A valid request that asks for a reset, or whose session
    key is not in the store, leaves under that key a new session: one
    message of role ["system"], then the user message and the reply of
    this turn.  The system prompt contains the five section markers.  When
    both the agent name and the client name are supplied and not empty,
    the prompt contains them and the language as they are, the age and the
    income as they are or as ["Not specified"] when not supplied, and the
    goal as it is or as ["General financial guidance"].  When the agent
    name or the client name is missing or empty, the prompt is the fixed
    text, with no profile field and no placeholder. *)
Theorem chat_creates_session (e : env) (data : fields) (c : conversations) :
  valid_message data ->
  c !! chat_session_id e data = None \/ f_reset data = Some true ->
  let prompt := chat_system_prompt data in
  let with_profile := truthy (f_agent_name data) && truthy (f_client_name data) in
  (chat e (json_request data) c).2 !! chat_session_id e data
    = Some [Message "system" prompt; user_turn data;
            Message "assistant" (chat_reply e data [Message "system" prompt])]
  /\ has_all_markers prompt = true
  /\ (with_profile = true ->
      contains (default "" (f_agent_name data)) prompt = true
      /\ contains (default "" (f_client_name data)) prompt = true
      /\ contains (py_or (f_client_age data) "Not specified") prompt = true
      /\ contains ("₹" +:+ py_or (f_client_income data) "Not specified") prompt = true
      /\ contains (py_or (f_client_goal data) "General financial guidance") prompt = true
      /\ contains (default "English" (f_language data) +:+ nl) prompt = true)
  /\ (with_profile = false -> prompt = prompt_head +:+ prompt_tail).
Proof.
  intros Hvalid Hnew prompt with_profile. split_and!.
  - rewrite (chat_valid e data c Hvalid). cbn [snd]. rewrite lookup_insert_eq.
    assert (chat_base e data c = [Message "system" prompt]) as ->.
    { unfold chat_base.
      destruct (clean_old_conversations c !! chat_session_id e data)
        as [conv|] eqn:Hconv; [|done].
      destruct Hnew as [Hnone| ->]; [|done].
      apply clean_old_conversations_Some in Hconv. congruence. }
    by rewrite trim_short by (cbn; unfold MAX_MESSAGES_PER_CONVERSATION; lia).
  - apply prompt_has_all_markers.
  - intros Hprofile. subst prompt with_profile. unfold chat_system_prompt.
    rewrite prompt_with_profile by (by rewrite !truthy_default).
    pose proof (session_info_contains
                  (Some (default "" (f_agent_name data)))
                  (Some (default "" (f_client_name data)))
                  (f_client_age data) (f_client_income data)
                  (f_client_goal data) (default "English" (f_language data)))
      as Hinfo.
    cbv zeta in Hinfo. unfold session_info in *. rewrite !py_or_default.
    destruct Hinfo as (? & ? & ? & ? & ? & ?).
    split_and!; by apply contains_app_r, contains_app_l.
  - intros Hprofile. subst prompt with_profile. unfold chat_system_prompt.
    apply prompt_without_profile. by rewrite !truthy_default.
Qed.

Lemma chat_creates_session_witness :
  let data := Fields (Some "s1") None (Some "Hi") (Some "Ravi") (Some "Asha")
                (Some "31") None None None (Some true) false in
  contains "Ravi" (chat_system_prompt data) = true
  /\ contains "Asha" (chat_system_prompt data) = true
  /\ contains "31" (chat_system_prompt data) = true
  /\ contains "₹Not specified" (chat_system_prompt data) = true.
Proof.
  intros data.
  destruct (chat_creates_session (failing 503) data (store_of 3))
    as (_ & _ & Hwith & _).
  - by vm_compute.
  - by right.
  - destruct Hwith as (? & ? & ? & ? & _); [reflexivity|]. by split_and!.
Defined.

(** ** Growth through POST /api/chat *)

(** C10. A successful POST /api/chat appends exactly the user message and
    then the assistant message to the session (a new session starting from
    its system message), cuts nothing and removes no session: every other
    session is as it was.  So a session can grow beyond
    [MAX_MESSAGES_PER_CONVERSATION] messages and the store beyond
    [MAX_CONVERSATIONS] sessions through this endpoint. *)
Theorem api_chat_appends_without_limits :
  (forall (e : env) (data : fields) (c : conversations),
     valid_message data ->
     let session_id := api_chat_session_id e data in
     let base := api_chat_base e data c in
     let '(r, c') := api_chat e (json_request data) c in
     status r = 200%Z /\ field "success" r = Some (JBool true)
     /\ c' !! session_id
          = Some (base ++ [user_turn data;
                           Message "assistant" (api_chat_reply e data base)])
     /\ (forall k, k <> session_id -> c' !! k = c !! k)
     /\ size c <= size c')
  /\ (exists e data c conv,
        reachable c /\ valid_message data
        /\ (api_chat e (json_request data) c).2 !! api_chat_session_id e data
             = Some conv
        /\ MAX_MESSAGES_PER_CONVERSATION < length conv)
  /\ (exists e data c,
        reachable c /\ valid_message data
        /\ size c <= MAX_CONVERSATIONS
        /\ MAX_CONVERSATIONS < size (api_chat e (json_request data) c).2).
Proof.
  split_and!.
  - intros e data c Hvalid session_id base.
    rewrite (api_chat_valid e data c Hvalid). fold session_id base.
    split_and!; try done.
    + rewrite lookup_insert_eq. by rewrite <-app_assoc.
    + intros k Hk. by rewrite lookup_insert_ne.
    + rewrite map_size_insert. destruct (c !! session_id); simpl; lia.
  - exists (failing 503), (hello "s1"), (talk 24).
    eexists. split_and!;
      [apply talk_reachable|by vm_compute|by vm_compute|].
    vm_compute. lia.
  - exists (failing 503), (hello "fresh"), (store_of 100).
    split_and!;
      [apply store_of_reachable|by vm_compute|vm_compute; lia|].
    vm_compute. lia.
Qed.

Lemma api_chat_appends_without_limits_witness :
  let data := Fields None (Some "s1") (Some "Hi") None None None None None None
                None false in
  let c : conversations := {[ "s1" := long_session 49 ]} in
  let '(r, c') := api_chat (failing 503) (json_request data) c in
  status r = 200%Z /\ field "success" r = Some (JBool true)
  /\ c' !! "s1"
       = Some (long_session 49
                 ++ [user_turn data;
                     Message "assistant"
                       (api_chat_reply (failing 503) data (long_session 49))])
  /\ (forall k, k <> "s1" -> c' !! k = c !! k)
  /\ size c <= size c'.
Proof.
  intros data c.
  apply (proj1 api_chat_appends_without_limits (failing 503) data c).
  by vm_compute.
Defined.

(** * Further properties *)

(** ** What a request does to the store *)

Section request_cases.

Variable e : env.
Variable rq : request.
Variable c : conversations.

Lemma valid_message_dec (data : fields) :
  valid_message data \/ strip (default "" (f_message data)) = "".
Proof.
  unfold valid_message.
  destruct (decide (strip (default "" (f_message data)) = "")); auto.
Qed.

(** A request to POST /chat is either refused, and then the store is the
    one the eviction pass leaves, or it carries a JSON object with a valid
    message. *)
Lemma chat_cases :
  ((status (chat e rq c).1 = 400%Z \/ status (chat e rq c).1 = 500%Z)
   /\ field "success" (chat e rq c).1 = Some (JBool false)
   /\ (chat e rq c).2 = clean_old_conversations c)
  \/ (exists data, rq = json_request data /\ valid_message data).
Proof.
  destruct rq as [[|] [bad|[[|] err|data]]];
    try (left; split_and!; by auto).
  destruct (valid_message_dec data) as [Hvalid|Hblank]; [right; by eauto|].
  left. unfold chat. cbn [is_json get_json negb].
  destruct (dict_empty data); [split_and!; by auto|].
  rewrite decide_True by done. split_and!; by auto.
Qed.

(** A request to POST /api/chat is either refused, and then the store is
    untouched, or it carries a JSON object with a valid message. *)
Lemma api_chat_cases :
  ((status (api_chat e rq c).1 = 400%Z \/ status (api_chat e rq c).1 = 500%Z)
   /\ field "success" (api_chat e rq c).1 = Some (JBool false)
   /\ (api_chat e rq c).2 = c)
  \/ (exists data, rq = json_request data /\ valid_message data).
Proof.
  destruct rq as [[|] [bad|[truth err|data]]];
    try (left; split_and!; by auto).
  destruct (valid_message_dec data) as [Hvalid|Hblank]; [right; by eauto|].
  left. unfold api_chat. cbn [is_json get_json negb].
  rewrite decide_True by done. split_and!; by auto.
Qed.

End request_cases.

(** X1. Whatever the request, the store POST /chat leaves is the store
    left by the eviction pass, with at most the one session the request
    addresses replaced; and it is exactly the store left by the eviction
    pass unless the answer is 200. *)
Theorem chat_touches_one_session (e : env) (rq : request) (c : conversations) :
  ((chat e rq c).2 = clean_old_conversations c
   \/ exists data conv,
        rq = json_request data
        /\ (chat e rq c).2
             = <[chat_session_id e data := conv]> (clean_old_conversations c))
  /\ (status (chat e rq c).1 <> 200%Z ->
      (chat e rq c).2 = clean_old_conversations c)
  /\ (forall k l, (chat e rq c).2 !! k = Some l ->
        c !! k = Some l
        \/ exists data, rq = json_request data /\ k = chat_session_id e data).
Proof.
  destruct (chat_cases e rq c) as [(Hstatus & _ & Hstore)|(data & -> & Hvalid)].
  - split_and!; [by left|done|].
    intros k l. rewrite Hstore. intros ?%clean_old_conversations_Some. by left.
  - rewrite (chat_valid e data c Hvalid). cbn [fst snd status].
    split_and!; [right; by eauto|done|].
    intros k l. rewrite lookup_insert. case_decide as Hk.
    + intros _. right. by eauto.
    + intros ?%clean_old_conversations_Some. by left.
Qed.

(** X2. POST /api/chat never removes a session nor a message: whatever
    the request, every stored session is still there afterwards, with the
    same messages at its start; and the store is untouched unless the
    answer is 200. *)
Theorem api_chat_only_appends (e : env) (rq : request) (c : conversations) :
  (forall k l, c !! k = Some l ->
     exists l', (api_chat e rq c).2 !! k = Some l' /\ l `prefix_of` l')
  /\ (status (api_chat e rq c).1 <> 200%Z -> (api_chat e rq c).2 = c).
Proof.
  destruct (api_chat_cases e rq c) as [(Hstatus & _ & Hstore)|(data & -> & Hvalid)].
  - split; [|done]. intros k l Hl. rewrite Hstore. by eauto.
  - rewrite (api_chat_valid e data c Hvalid). cbn [fst snd status].
    split; [|done]. intros k l Hl. rewrite lookup_insert. case_decide as Hk.
    + subst k. eexists. split; [done|].
      unfold api_chat_base. rewrite Hl. rewrite <-app_assoc. by apply prefix_app_r.
    + by eauto.
Qed.

(** X3. Every request with a valid message to POST /api/chat is answered
    200 with [success] true and the same non-empty text in [response] and
    in [message]; that text is the first choice of a 200 answer of the
    provider, as it is, or a fallback with the five section markers. *)
Theorem api_chat_response_nonempty (e : env) (data : fields) (c : conversations) :
  valid_message data ->
  let r := (api_chat e (json_request data) c).1 in
  status r = 200%Z /\ field "success" r = Some (JBool true)
  /\ exists text : string,
       field "response" r = Some (JStr text)
       /\ field "message" r = Some (JStr text)
       /\ text <> ""
       /\ ((exists messages, groq e messages = Responded 200 (FirstChoice text))
           \/ has_all_markers text = true).
Proof.
  intros Hvalid. rewrite (api_chat_valid e data c Hvalid). cbn [fst].
  split_and!; try done.
  eexists. split_and!; try done.
  - apply or_fallback_nonempty.
  - unfold api_chat_reply, or_fallback. case_decide as Hempty.
    { right. apply fallback_has_all_markers. }
    destruct (generate_groq_response_total e
                (api_chat_base e data c ++ [user_turn data]))
      as [(text & Hgroq & ->)|(reason & _ & ->)].
    + left. by eauto.
    + right. apply fallback_has_all_markers.
Qed.

Lemma api_chat_response_nonempty_witness :
  let r := (api_chat (failing 401) (json_request (hello "s1")) ∅).1 in
  status r = 200%Z /\ field "success" r = Some (JBool true)
  /\ exists text : string,
       field "response" r = Some (JStr text)
       /\ field "message" r = Some (JStr text)
       /\ text <> ""
       /\ ((exists messages,
              groq (failing 401) messages = Responded 200 (FirstChoice text))
           \/ has_all_markers text = true).
Proof.
  apply (api_chat_response_nonempty (failing 401) (hello "s1") ∅).
  by vm_compute.
Defined.

(** ** Probing the provider *)

Lemma py_len_nonneg (s : string) : (0 <= py_len s)%Z.
Proof. induction s as [|a s IH]; cbn [py_len]; [lia|]. case_match; lia. Qed.

Lemma fallback_first_byte (reason : option string) :
  exists rest, generate_fallback_response reason = String "*" rest.
Proof. by eexists. Qed.

(** X4. GET /test_groq answers 200 with [status] ["success"] and
    [api_key_valid] true whatever the provider does, an authentication
    failure or an exception included: the text it reports is then a
    fallback, which contains the five section markers, and never the
    error answer of the handler. *)
Theorem test_groq_always_succeeds (e : env) :
  status (test_groq e) = 200%Z
  /\ field "status" (test_groq e) = Some (JStr "success")
  /\ field "api_key_valid" (test_groq e) = Some (JBool true)
  /\ exists text : string,
       field "test_response" (test_groq e) = Some (JStr text)
       /\ ((exists first, groq e test_messages = Responded 200 (FirstChoice first)
                          /\ text = first)
           \/ (text <> "" /\ has_all_markers text = true
               /\ (0 < py_len text)%Z
               /\ field "response_length" (test_groq e) = Some (JNum (py_len text)))).
Proof.
  unfold test_groq. split_and!; try done.
  eexists. split; [done|].
  destruct (generate_groq_response_total e test_messages)
    as [(text & Hgroq & ->)|(reason & _ & ->)]; [left; by eauto|right].
  split_and!.
  - apply fallback_nonempty.
  - apply fallback_has_all_markers.
  - destruct (fallback_first_byte (Some reason)) as [rest ->].
    change (py_len (String "*" rest)) with (1 + py_len rest)%Z.
    pose proof (py_len_nonneg rest). lia.
  - unfold field. cbn [body assoc].
    repeat (rewrite decide_False by done).
    rewrite decide_True by done.
    by rewrite decide_False by apply fallback_nonempty.
Qed.

(** X5. GET /health always answers 200 with [status] ["healthy"] and the
    number of stored sessions; it reports the provider as ["connected"]
    exactly when the probe was answered with status 200, and as
    ["disconnected"] for every other status and for every exception. *)
Theorem health_check_reports_probe (e : env) (c : conversations) :
  status (health_check e c) = 200%Z
  /\ field "status" (health_check e c) = Some (JStr "healthy")
  /\ field "active_conversations" (health_check e c)
       = Some (JNum (Z.of_nat (size c)))
  /\ (field "groq_api_status" (health_check e c) = Some (JStr "connected")
      <-> exists b, groq e probe_messages = Responded 200 b)
  /\ (field "groq_api_status" (health_check e c) = Some (JStr "disconnected")
      <-> forall b, groq e probe_messages <> Responded 200 b).
Proof.
  unfold health_check, validate_groq_api_key. split_and!; try done.
  - destruct (groq e probe_messages) as [ex|code b]; cbn.
    + split; [done|]. by intros [? ?].
    + case_bool_decide as Hcode; cbn.
      * subst code. split; [by eauto|done].
      * split; [done|]. intros [? [= ? ?]]. done.
  - destruct (groq e probe_messages) as [ex|code b]; cbn.
    + split; done.
    + case_bool_decide as Hcode; cbn.
      * subst code. split; [done|]. intros H. by destruct (H b).
      * split; [|done]. intros _ b' [= ? ?]. done.
Qed.

(** ** The shape of a session *)

Section transcripts.

Lemma turns_app (l1 l2 : list message) : turns l1 -> turns l2 -> turns (l1 ++ l2).
Proof. induction 1; cbn [app]; [done|]. intros. constructor; auto. Qed.

Lemma turns_length (l : list message) : turns l -> exists k, length l = 2 * k.
Proof.
  induction 1 as [|u a l _ _ _ [k Hk]]; [by exists 0|].
  exists (S k). cbn [length]. lia.
Qed.

Lemma turns_drop (l : list message) (k : nat) : turns l -> turns (drop (2 * k) l).
Proof.
  intros H. revert k. induction H as [|u a l Hu Ha Hl IH]; intros k.
  - rewrite drop_nil. constructor.
  - destruct k as [|k]; [by constructor|].
    replace (2 * S k) with (S (S (2 * k))) by lia. apply IH.
Qed.

Lemma turns_filter (l : list message) :
  turns l -> filter (fun msg => role msg <> "system") l = l.
Proof.
  induction 1 as [|u a l Hu Ha _ IH]; [done|].
  rewrite !filter_cons.
  rewrite decide_True by (by rewrite Hu).
  rewrite decide_True by (by rewrite Ha).
  by rewrite IH.
Qed.

Lemma turn_is_turns (u a : message) :
  role u = "user" -> role a = "assistant" -> turns [u; a].
Proof. intros. by repeat constructor. Qed.

(** Trimming keeps the shape. *)
Lemma trim_turns (m : message) (tl : list message) :
  turns tl -> tl <> [] ->
  exists tl', trim (m :: tl) = m :: tl' /\ turns tl' /\ tl' <> []
              /\ length tl' <= length tl.
Proof.
  intros Htl Hne. unfold trim. case_decide as Hlen; [|by eauto].
  destruct (trim_long m tl Hlen) as [_ Hkept].
  destruct (turns_length tl Htl) as [k Hk].
  unfold MAX_MESSAGES_PER_CONVERSATION in Hlen. cbn [length] in Hlen.
  replace (length (m :: tl) - 40) with (S (length tl - 40))
    by (cbn [length]; lia).
  cbn [drop]. eexists. split_and!; [done| | |].
  - replace (length tl - 40) with (2 * (k - 20)) by lia. by apply turns_drop.
  - intros Hnil. rewrite Hnil in Hkept. done.
  - rewrite length_drop. lia.
Qed.

Lemma transcripts_clean (c : conversations) :
  transcripts c -> transcripts (clean_old_conversations c).
Proof. intros Hc k l Hl%clean_old_conversations_Some. by apply (Hc k). Qed.

Lemma transcripts_insert (c : conversations) k m tl :
  role m = "system" -> turns tl -> tl <> [] ->
  transcripts c -> transcripts (<[k := m :: tl]> c).
Proof.
  intros Hm Htl Hne Hc k' l. rewrite lookup_insert. case_decide.
  - intros [= <-]. by exists m, tl.
  - apply Hc.
Qed.

Lemma chat_base_turns (e : env) (data : fields) (c : conversations) :
  transcripts c ->
  exists m tl, chat_base e data c = m :: tl /\ role m = "system" /\ turns tl.
Proof.
  intros Hc. unfold chat_base.
  destruct (clean_old_conversations c !! chat_session_id e data)
    as [conv|] eqn:Hconv; [|do 2 eexists; split_and!; by try constructor].
  destruct (default false (f_reset data));
    [do 2 eexists; split_and!; by try constructor|].
  apply clean_old_conversations_Some in Hconv.
  destruct (Hc _ _ Hconv) as (m & tl & -> & ? & _ & ?). by eauto.
Qed.

Lemma api_chat_base_turns (e : env) (data : fields) (c : conversations) :
  transcripts c ->
  exists m tl, api_chat_base e data c = m :: tl /\ role m = "system" /\ turns tl.
Proof.
  intros Hc. unfold api_chat_base.
  destruct (c !! api_chat_session_id e data) as [conv|] eqn:Hconv;
    [|do 2 eexists; split_and!; by try constructor].
  destruct (Hc _ _ Hconv) as (m & tl & -> & ? & _ & ?). by eauto.
Qed.

Lemma chat_transcripts (e : env) (rq : request) (c : conversations) :
  transcripts c -> transcripts (chat e rq c).2.
Proof.
  intros Hc.
  destruct (chat_cases e rq c) as [(_ & _ & ->)|(data & -> & Hvalid)];
    [by apply transcripts_clean|].
  rewrite (chat_valid e data c Hvalid). cbn [snd].
  destruct (chat_base_turns e data c Hc) as (m & tl & -> & Hm & Htl).
  rewrite <-app_assoc. cbn [app].
  destruct (trim_turns m (tl ++ [user_turn data;
              Message "assistant" (chat_reply e data (m :: tl))]))
    as (tl' & -> & ? & ? & _).
  - apply turns_app; [done|]. by apply turn_is_turns.
  - by destruct tl.
  - apply transcripts_insert; by try apply transcripts_clean.
Qed.

Lemma api_chat_transcripts (e : env) (rq : request) (c : conversations) :
  transcripts c -> transcripts (api_chat e rq c).2.
Proof.
  intros Hc.
  destruct (api_chat_cases e rq c) as [(_ & _ & ->)|(data & -> & Hvalid)];
    [done|].
  rewrite (api_chat_valid e data c Hvalid). cbn [snd].
  destruct (api_chat_base_turns e data c Hc) as (m & tl & -> & Hm & Htl).
  rewrite <-app_assoc. cbn [app].
  apply transcripts_insert; try done.
  - apply turns_app; [done|]. by apply turn_is_turns.
  - by destruct tl.
Qed.

Lemma clear_conversation_transcripts session_id (c : conversations) :
  transcripts c -> transcripts (clear_conversation session_id c).2.
Proof.
  intros Hc k l. unfold clear_conversation. cbn [snd].
  case_bool_decide; [|apply Hc].
  rewrite lookup_delete. case_decide; [done|apply Hc].
Qed.

Lemma reachable_transcripts (c : conversations) : reachable c -> transcripts c.
Proof.
  unfold reachable. revert c. apply (rtc_ind_r (R := step)).
  - intros k l. by rewrite lookup_empty.
  - intros c1 c2 _ Hstep IH. destruct Hstep;
      auto using chat_transcripts, api_chat_transcripts,
        clear_conversation_transcripts.
Qed.

End transcripts.

(** X6. In every store the server can reach, each session is its system
    message followed by whole turns, at least one: a message of role
    ["user"] and then one of role ["assistant"], alternating.  So a
    session never holds a second system message, never ends on a user
    message, and has an odd number of messages, three or more. *)
Theorem reachable_sessions_alternate (c : conversations) (k : string)
    (l : list message) :
  reachable c -> c !! k = Some l ->
  exists system_message tl n,
    l = system_message :: tl /\ role system_message = "system"
    /\ turns tl /\ length l = 2 * n + 3
    /\ Forall (fun m => role m = "user" \/ role m = "assistant") tl.
Proof.
  intros Hreach Hl.
  destruct (reachable_transcripts c Hreach k l Hl) as (m & tl & -> & Hm & Hne & Htl).
  destruct (turns_length tl Htl) as [n Hn].
  exists m, tl, (n - 1). split_and!; try done.
  - cbn [length]. destruct tl; [done|]. cbn [length] in *. lia.
  - clear Hne Hn Hl. induction Htl as [|u a l Hu Ha _ IH]; [constructor|].
    constructor; [by left|]. constructor; [by right|]. exact IH.
Qed.

Lemma reachable_sessions_alternate_witness :
  exists system_message tl n,
    [Message "system" (chat_system_prompt (greet "s1")); user_turn (greet "s1");
     Message "assistant" (chat_reply (failing 503) (greet "s1")
        [Message "system" (chat_system_prompt (greet "s1"))])]
      = system_message :: tl
    /\ role system_message = "system"
    /\ turns tl /\ 3 = 2 * n + 3
    /\ Forall (fun m => role m = "user" \/ role m = "assistant") tl.
Proof.
  apply (reachable_sessions_alternate
           (chat (failing 503) (json_request (greet "s1")) ∅).2 "s1").
  - apply rtc_once, step_chat.
  - by vm_compute.
Defined.

(** ** Bounds kept by POST /chat *)

Lemma trim_length (l : list message) :
  length (trim l) <= MAX_MESSAGES_PER_CONVERSATION.
Proof.
  unfold trim. case_decide as Hlen; [|lia].
  destruct l as [|m tl]; [cbn in *; lia|].
  destruct (trim_long m tl Hlen) as [_ Hkept].
  replace (length (m :: tl) - 40) with (S (length tl - 40))
    by (unfold MAX_MESSAGES_PER_CONVERSATION in Hlen; cbn [length] in *; lia).
  cbn [drop length]. rewrite Hkept. unfold MAX_MESSAGES_PER_CONVERSATION. lia.
Qed.

(** X7. Whatever the session held before, also more than the cap after
    growing through POST /api/chat, a successful turn of POST /chat leaves
    it with at most [MAX_MESSAGES_PER_CONVERSATION] messages, and the
    [message_count] of the answer is the number of stored messages less
    one. *)
Theorem chat_session_within_cap (e : env) (data : fields) (c : conversations) :
  valid_message data ->
  let '(r, c') := chat e (json_request data) c in
  exists conv,
    c' !! chat_session_id e data = Some conv
    /\ length conv <= MAX_MESSAGES_PER_CONVERSATION
    /\ field "message_count" r = Some (JNum (Z.of_nat (length conv) - 1)).
Proof.
  intros Hvalid. rewrite (chat_valid e data c Hvalid).
  eexists. split_and!; [apply lookup_insert_eq|apply trim_length|done].
Qed.

Lemma chat_session_within_cap_witness :
  let '(r, c') := chat (failing 503) (json_request (greet "s1")) (talk 40) in
  exists conv,
    c' !! chat_session_id (failing 503) (greet "s1") = Some conv
    /\ length conv <= MAX_MESSAGES_PER_CONVERSATION
    /\ field "message_count" r = Some (JNum (Z.of_nat (length conv) - 1)).
Proof.
  apply (chat_session_within_cap (failing 503) (greet "s1") (talk 40)).
  by vm_compute.
Defined.

Section chat_only.

(** The bounds POST /chat and POST /clear_conversation keep. *)
Let bounded (c : conversations) : Prop :=
  size c <= MAX_CONVERSATIONS + 1
  /\ forall k l, c !! k = Some l -> length l <= MAX_MESSAGES_PER_CONVERSATION.

Lemma chat_bounded (e : env) (rq : request) (c : conversations) :
  bounded c -> bounded (chat e rq c).2.
Proof.
  unfold bounded. intros [Hsize Hlen].
  assert (size (clean_old_conversations c) <= MAX_CONVERSATIONS) as Hfit.
  { rewrite clean_old_conversations_size. unfold MAX_CONVERSATIONS in *.
    case_decide; lia. }
  assert (forall k l, clean_old_conversations c !! k = Some l ->
            length l <= MAX_MESSAGES_PER_CONVERSATION) as Hclean.
  { intros k l Hl%clean_old_conversations_Some. by apply (Hlen k). }
  destruct (chat_cases e rq c) as [(_ & _ & ->)|(data & -> & Hvalid)].
  { split; [lia|done]. }
  rewrite (chat_valid e data c Hvalid). cbn [snd]. split.
  - rewrite map_size_insert. unfold MAX_CONVERSATIONS in *.
    destruct (clean_old_conversations c !! chat_session_id e data);
      cbn [id]; lia.
  - intros k l. rewrite lookup_insert. case_decide.
    + intros [= <-]. apply trim_length.
    + apply Hclean.
Qed.

Lemma clear_conversation_bounded session_id (c : conversations) :
  bounded c -> bounded (clear_conversation session_id c).2.
Proof.
  unfold bounded. intros [Hsize Hlen]. unfold clear_conversation. cbn [snd].
  case_bool_decide as Hin; [|done]. split.
  - rewrite map_size_delete_Some by done. lia.
  - intros k l. rewrite lookup_delete. case_decide; [done|apply Hlen].
Qed.

Lemma chat_reachable_bounded (c : conversations) : chat_reachable c -> bounded c.
Proof.
  unfold chat_reachable. revert c. apply (rtc_ind_r (R := chat_step)).
  - split; [rewrite map_size_empty; lia|]. intros k l. by rewrite lookup_empty.
  - intros c1 c2 _ Hstep IH. destruct Hstep;
      [by apply chat_bounded|by apply clear_conversation_bounded].
Qed.

Lemma chat_store_of_reachable (n : nat) : chat_reachable (chat_store_of n).
Proof.
  unfold chat_reachable. induction n as [|n IH]; [done|].
  eapply rtc_r; [exact IH|]. apply chat_step_chat.
Qed.

End chat_only.

(** X8. While only POST /chat and POST /clear_conversation are used, the
    store never holds more than [MAX_CONVERSATIONS + 1] sessions, and no
    session more than [MAX_MESSAGES_PER_CONVERSATION] messages.  The first
    bound is reached: 101 first requests leave 101 sessions, one more
    than [MAX_CONVERSATIONS]. *)
Theorem chat_only_bounds :
  (forall c : conversations,
     chat_reachable c ->
     size c <= MAX_CONVERSATIONS + 1
     /\ forall k l, c !! k = Some l -> length l <= MAX_MESSAGES_PER_CONVERSATION)
  /\ (exists c : conversations,
        chat_reachable c /\ size c = MAX_CONVERSATIONS + 1).
Proof.
  split; [apply chat_reachable_bounded|].
  exists (chat_store_of 101). split; [apply chat_store_of_reachable|].
  by vm_compute.
Qed.

Lemma chat_only_bounds_witness :
  size (chat_store_of 102) <= MAX_CONVERSATIONS + 1
  /\ forall k l, chat_store_of 102 !! k = Some l ->
       length l <= MAX_MESSAGES_PER_CONVERSATION.
Proof.
  apply (proj1 chat_only_bounds (chat_store_of 102)).
  apply chat_store_of_reachable.
Defined.

(** ** Reading a conversation back *)

Lemma history_of_transcript (session_id : string) (c : conversations)
    (l : list message) :
  transcript l -> c !! session_id = Some l ->
  get_conversation_history session_id c =
    HistoryResponse 200
      [("success", JBool true);
       ("message_count", JNum (Z.of_nat (length (tail l))));
       ("session_id", JStr session_id)]
      (tail l).
Proof.
  intros (m & tl & -> & Hm & _ & Htl) Hl.
  unfold get_conversation_history. rewrite Hl. rewrite filter_cons.
  rewrite decide_False by (by intros []).
  by rewrite (turns_filter tl Htl).
Qed.

Lemma trim_keeps_last_turn (m u a : message) (tl : list message) :
  exists kept, trim (m :: tl ++ [u; a]) = m :: kept ++ [u; a].
Proof.
  unfold trim. case_decide as Hlen; [|by eauto].
  unfold MAX_MESSAGES_PER_CONVERSATION in Hlen.
  cbn [length] in *. rewrite length_app in *. cbn [length] in *.
  replace (S (length tl + 2) - 40) with (S (length tl - 38)) by lia.
  cbn [drop]. rewrite drop_app_le by lia. by eauto.
Qed.

(** X9. In every store the server can reach, GET /conversation_history
    of a stored session answers 200 with the session less its first
    message, the system message, and nothing else removed; its
    [message_count] is the number of stored messages less one.  For an
    unknown session the answer is 404 with [success] false and an empty
    history. *)
Theorem conversation_history_is_tail (c : conversations) (session_id : string) :
  reachable c ->
  let h := get_conversation_history session_id c in
  match c !! session_id with
  | Some conv =>
      h_status h = 200%Z /\ assoc "success" (h_body h) = Some (JBool true)
      /\ h_history h = tail conv
      /\ assoc "message_count" (h_body h)
           = Some (JNum (Z.of_nat (length conv) - 1))
  | None =>
      h_status h = 404%Z /\ assoc "success" (h_body h) = Some (JBool false)
      /\ h_history h = []
  end.
Proof.
  intros Hreach h. subst h.
  destruct (c !! session_id) as [conv|] eqn:Hconv.
  - pose proof (reachable_transcripts c Hreach _ _ Hconv) as Ht.
    rewrite (history_of_transcript session_id c conv Ht Hconv).
    destruct Ht as (m & tl & -> & _). cbn [h_status h_body h_history assoc tail].
    split_and!; try done.
    rewrite decide_False by done. rewrite decide_True by done.
    do 2 f_equal. cbn [length]. lia.
  - unfold get_conversation_history. by rewrite Hconv.
Qed.

Lemma conversation_history_is_tail_witness :
  let h := get_conversation_history "s1" (talk 2) in
  h_status h = 200%Z /\ length (h_history h) = 4.
Proof.
  pose proof (conversation_history_is_tail (talk 2) "s1" (talk_reachable 2)) as H.
  cbv zeta in H.
  destruct (talk 2 !! "s1") as [conv|] eqn:Hconv; [|by vm_compute in Hconv].
  destruct H as (Hstatus & _ & Hhistory & _). split; [exact Hstatus|].
  rewrite Hhistory. vm_compute in Hconv. by injection Hconv as <-.
Defined.

(** X10. After a successful turn of POST /chat from a store the server
    can reach, GET /conversation_history of that session answers 200, ends
    with the user message and the reply of the turn, and reports the same
    [message_count] as the turn did. *)
Theorem chat_then_history (e : env) (data : fields) (c : conversations) :
  reachable c -> valid_message data ->
  let '(r, c') := chat e (json_request data) c in
  let h := get_conversation_history (chat_session_id e data) c' in
  h_status h = 200%Z
  /\ assoc "message_count" (h_body h) = field "message_count" r
  /\ exists earlier text,
       field "response" r = Some (JStr text)
       /\ h_history h = earlier ++ [user_turn data; Message "assistant" text].
Proof.
  intros Hreach Hvalid.
  pose proof (reachable_transcripts _ Hreach) as Hc.
  assert (transcripts (chat e (json_request data) c).2) as Hc'
    by (by apply chat_transcripts).
  rewrite (chat_valid e data c Hvalid) in *. cbn [snd] in Hc'. cbv zeta.
  destruct (chat_base_turns e data c Hc) as (m & tl & Hbase & Hm & Htl).
  rewrite Hbase in *. rewrite <-app_assoc in *. cbn [app] in *.
  destruct (trim_keeps_last_turn m (user_turn data)
              (Message "assistant" (chat_reply e data (m :: tl))) tl)
    as [kept Hkept].
  rewrite Hkept in *.
  rewrite (history_of_transcript _ _ (m :: kept ++
             [user_turn data; Message "assistant" (chat_reply e data (m :: tl))])).
  - cbn [h_status h_body h_history tail assoc].
    split_and!; [done| |by eauto].
    unfold field. cbn [body assoc length].
    repeat (rewrite decide_False by done). rewrite !decide_True by done.
    do 2 f_equal. lia.
  - apply (Hc' (chat_session_id e data)). apply lookup_insert_eq.
  - apply lookup_insert_eq.
Qed.

Lemma chat_then_history_witness :
  let '(r, c') := chat (failing 503) (json_request (greet "s1")) (talk 30) in
  let h := get_conversation_history (chat_session_id (failing 503) (greet "s1")) c' in
  h_status h = 200%Z
  /\ assoc "message_count" (h_body h) = field "message_count" r
  /\ exists earlier text,
       field "response" r = Some (JStr text)
       /\ h_history h
            = earlier ++ [user_turn (greet "s1"); Message "assistant" text].
Proof.
  apply (chat_then_history (failing 503) (greet "s1") (talk 30)).
  - apply talk_reachable.
  - by vm_compute.
Defined.

(** ** Clearing after a turn *)

(** X11. When the session is not in the store the eviction pass leaves,
    a successful turn of POST /chat followed by POST /clear_conversation
    of that session gives back exactly that store. *)
Theorem chat_then_clear (e : env) (data : fields) (c : conversations) :
  valid_message data ->
  clean_old_conversations c !! chat_session_id e data = None ->
  (clear_conversation (chat_session_id e data)
     (chat e (json_request data) c).2).2
    = clean_old_conversations c.
Proof.
  intros Hvalid Hnew. rewrite (chat_valid e data c Hvalid).
  unfold clear_conversation. cbn [snd].
  rewrite lookup_insert_eq. rewrite bool_decide_true by (by eexists).
  rewrite delete_insert_eq. by apply delete_id.
Qed.

Lemma chat_then_clear_witness :
  (clear_conversation "fresh"
     (chat (failing 503) (json_request (greet "fresh")) (store_of 3)).2).2
    = clean_old_conversations (store_of 3).
Proof.
  apply (chat_then_clear (failing 503) (greet "fresh") (store_of 3));
    by vm_compute.
Defined.

(** X12. After POST /clear_conversation of a session, its history is
    answered 404, and the history of every other session is answered as
    before. *)
Theorem clear_then_history (session_id : string) (c : conversations) :
  let c' := (clear_conversation session_id c).2 in
  h_status (get_conversation_history session_id c') = 404%Z
  /\ h_history (get_conversation_history session_id c') = []
  /\ forall k, k <> session_id ->
       get_conversation_history k c' = get_conversation_history k c.
Proof.
  unfold clear_conversation. cbn [snd].
  assert ((if bool_decide (is_Some (c !! session_id))
           then delete session_id c else c) = delete session_id c) as ->.
  { case_bool_decide as H; [done|]. symmetry. apply delete_id.
    by apply eq_None_not_Some. }
  unfold get_conversation_history. rewrite lookup_delete_eq.
  split_and!; try done.
  intros k Hk. by rewrite lookup_delete_ne.
Qed.

(** ** What eviction looks at *)

Lemma sorted_sessions_dom (c1 c2 : conversations) :
  dom c1 = dom c2 -> sorted_sessions c1 = sorted_sessions c2.
Proof.
  intros Hdom.
  apply (StronglySorted_unique String.le); try apply sorted_sessions_sorted.
  apply NoDup_Permutation; try apply sorted_sessions_NoDup.
  intros k. rewrite !elem_of_sorted_sessions, <-!elem_of_dom. by rewrite Hdom.
Qed.

(** X13. Which sessions a pass removes depends on the set of session keys
    alone: two stores with the same keys lose the same sessions, whatever
    their messages and whichever was used last. *)
Theorem eviction_depends_on_keys_only (c1 c2 : conversations) :
  dom c1 = dom c2 ->
  batch c1 = batch c2
  /\ dom (clean_old_conversations c1) = dom (clean_old_conversations c2).
Proof.
  intros Hdom.
  assert (batch c1 = batch c2) as Hbatch.
  { unfold batch. by rewrite (sorted_sessions_dom c1 c2). }
  split; [done|].
  assert (size c1 = size c2) as Hsize.
  { by rewrite <-!size_dom, Hdom. }
  apply set_eq. intros k. rewrite !elem_of_dom.
  rewrite !clean_old_conversations_lookup, Hsize, Hbatch.
  repeat case_decide; try done; by rewrite <-!elem_of_dom, Hdom.
Qed.

Lemma eviction_depends_on_keys_only_witness :
  batch (store_of 105) = batch ((fun _ => long_session 4) <$> store_of 105).
Proof.
  apply (eviction_depends_on_keys_only (store_of 105)
           ((fun _ => long_session 4) <$> store_of 105)).
  by rewrite dom_fmap_L.
Defined.

(** ** A turn on a stored session *)

(** X14. A turn of POST /chat on a stored session, without reset, keeps
    the first message of the session as it is, whatever profile fields
    the request carries: the system prompt is not composed again.  When
    the session has room for two more messages, the turn appends exactly
    the user message and the reply and drops nothing. *)
Theorem chat_continues_session (e : env) (data : fields) (c : conversations)
    (system_message : message) (rest : list message) :
  valid_message data ->
  default false (f_reset data) = false ->
  clean_old_conversations c !! chat_session_id e data
    = Some (system_message :: rest) ->
  let reply := chat_reply e data (system_message :: rest) in
  let c' := (chat e (json_request data) c).2 in
  (exists tl, c' !! chat_session_id e data = Some (system_message :: tl))
  /\ (length (system_message :: rest) + 2 <= MAX_MESSAGES_PER_CONVERSATION ->
      c' !! chat_session_id e data
        = Some (system_message :: rest
                  ++ [user_turn data; Message "assistant" reply])).
Proof.
  intros Hvalid Hreset Hconv reply c'. subst c'.
  rewrite (chat_valid e data c Hvalid). cbn [snd]. rewrite lookup_insert_eq.
  assert (chat_base e data c = system_message :: rest) as ->.
  { unfold chat_base. by rewrite Hconv, Hreset. }
  fold reply. rewrite <-app_assoc. cbn [app]. split.
  - destruct (trim_head system_message
                (rest ++ [user_turn data; Message "assistant" reply]))
      as [tl ->]. by eauto.
  - intros Hroom. rewrite trim_short; [done|].
    cbn [length] in *. rewrite length_app. cbn [length]. lia.
Qed.

Lemma chat_continues_session_witness :
  let data := Fields (Some "s1") None (Some "Hi") (Some "Ravi") (Some "Asha")
                None None None None None false in
  let c' := (chat (failing 503) (json_request data) (talk 3)).2 in
  exists tl,
    c' !! "s1"
      = Some (Message "system"
                (generate_enhanced_system_prompt None None None None None "English")
              :: tl).
Proof.
  intros data c'. subst c'.
  refine (proj1 (chat_continues_session (failing 503) data (talk 3) _ _ _ _ _)).
  - by vm_compute.
  - reflexivity.
  - by vm_compute.
Defined.

(** X15. When the store is over capacity and the session a request
    addresses is among the ten the eviction pass removes, a valid turn of
    POST /chat starts that session again: what was stored is lost, and the
    session holds the system message, the user message and the reply. *)
Theorem chat_restarts_evicted_session (e : env) (data : fields)
    (c : conversations) :
  valid_message data ->
  MAX_CONVERSATIONS < size c ->
  chat_session_id e data ∈ batch c ->
  let prompt := chat_system_prompt data in
  is_Some (c !! chat_session_id e data)
  /\ (chat e (json_request data) c).2 !! chat_session_id e data
       = Some [Message "system" prompt; user_turn data;
               Message "assistant" (chat_reply e data [Message "system" prompt])].
Proof.
  intros Hvalid Hover Hbatch prompt. split; [by apply batch_present|].
  rewrite (chat_valid e data c Hvalid). cbn [snd]. rewrite lookup_insert_eq.
  assert (chat_base e data c = [Message "system" prompt]) as ->.
  { unfold chat_base. rewrite clean_old_conversations_lookup.
    by rewrite !decide_True. }
  by rewrite trim_short by (cbn; unfold MAX_MESSAGES_PER_CONVERSATION; lia).
Qed.

Lemma chat_restarts_evicted_session_witness :
  let c := (api_chat (failing 503) (json_request (hello "s0")) (store_of 101)).2 in
  length <$> c !! "s0" = Some 5
  /\ length <$> (chat (failing 503) (json_request (greet "s0")) c).2 !! "s0"
       = Some 3.
Proof.
  intros c. split; [by vm_compute|].
  destruct (chat_restarts_evicted_session (failing 503) (greet "s0") c)
    as [_ H];
    [by vm_compute|vm_compute; lia|vm_compute; by left|].
  change (chat_session_id (failing 503) (greet "s0")) with "s0" in H.
  by rewrite H.
Defined.

(** ** Session keys and the prompt of POST /api/chat *)

(** X16. A session that POST /api/chat creates starts with the fixed
    system prompt, the same for every request: no profile field and no
    language of the request has any effect on it. *)
Theorem api_chat_prompt_is_fixed (e : env) (data : fields) (c : conversations) :
  valid_message data ->
  c !! api_chat_session_id e data = None ->
  exists reply,
    (api_chat e (json_request data) c).2 !! api_chat_session_id e data
      = Some [Message "system" (prompt_head +:+ prompt_tail);
              user_turn data; Message "assistant" reply].
Proof.
  intros Hvalid Hnew. rewrite (api_chat_valid e data c Hvalid). cbn [snd].
  rewrite lookup_insert_eq. unfold api_chat_base. rewrite Hnew.
  eexists. by cbn [app].
Qed.

Lemma api_chat_prompt_is_fixed_witness :
  let data := Fields None (Some "s1") (Some "Hi") (Some "Ravi") (Some "Asha")
                None None None (Some "Hindi") None false in
  exists reply,
    (api_chat (failing 503) (json_request data) ∅).2 !! "s1"
      = Some [Message "system" (prompt_head +:+ prompt_tail);
              user_turn data; Message "assistant" reply].
Proof.
  intros data.
  apply (api_chat_prompt_is_fixed (failing 503) data ∅); by vm_compute.
Defined.

(** X17. The [session_id] that a successful answer of POST /chat or of
    POST /api/chat returns is the key under which the conversation is
    stored: the one the request names, and the generated one when it
    names none (for POST /api/chat, [sessionId] when it is not empty,
    else [session_id], else the generated one). *)
Theorem returned_session_id_is_stored (e : env) (data : fields)
    (c : conversations) :
  valid_message data ->
  (exists k, field "session_id" (chat e (json_request data) c).1 = Some (JStr k)
             /\ is_Some ((chat e (json_request data) c).2 !! k)
             /\ k = default (uuid4 e) (f_session_id data))
  /\ (exists k, field "session_id" (api_chat e (json_request data) c).1
                  = Some (JStr k)
                /\ is_Some ((api_chat e (json_request data) c).2 !! k)
                /\ k = match f_sessionId data with
                       | Some (String a s) => String a s
                       | _ => default (uuid4 e) (f_session_id data)
                       end).
Proof.
  intros Hvalid. split.
  - rewrite (chat_valid e data c Hvalid). cbn [fst snd].
    eexists. split_and!; [done| |done]. rewrite lookup_insert_eq. by eexists.
  - rewrite (api_chat_valid e data c Hvalid). cbn [fst snd].
    eexists. split_and!; [done| |done]. rewrite lookup_insert_eq. by eexists.
Qed.

Lemma returned_session_id_is_stored_witness :
  let data := Fields None None (Some "Hi") None None None None None None None false in
  field "session_id" (chat (failing 503) (json_request data) ∅).1
    = Some (JStr "generated-uuid")
  /\ is_Some ((chat (failing 503) (json_request data) ∅).2 !! "generated-uuid").
Proof.
  intros data.
  destruct (returned_session_id_is_stored (failing 503) data ∅)
    as [(k & Hfield & Hstored & ->) _]; [by vm_compute|].
  by split.
Defined.
